(** * Event controller: a shallow embedding of
      [backend/controllers/eventController.js]

    The controller is a set of asynchronous request handlers over two
    document collections, Events and Geofences.  Each handler is embedded as
    a computation in a state-and-exception monad over the database: a
    [throw] aborts the handler but keeps whatever was written before it,
    exactly as the JavaScript does (there is no transaction around the
    writes). *)

From Stdlib Require Import List ZArith NArith Bool String Ascii Lia.
From Stdlib Require Import PrimFloat Sorted Permutation.
From Stdlib Require HexadecimalString.
Import ListNotations.
Local Open Scope string_scope.
Local Set Warnings "-register-all".

(** ** JavaScript values read by the handlers *)

(** The two request fields that go through the [||] operator,
    [geofenceRadius] and [trafficImpact], are arbitrary JSON values; a JS
    number is an IEEE double. *)
Inductive jsval : Type :=
| JUndefined
| JNull
| JBool (b : bool)
| JNum (f : float)
| JStr (s : string)
| JArr (items : list jsval)
| JObj (fields : list (string * jsval)).

(** ToBoolean: [undefined], [null], [false], [NaN], [+0], [-0] and the empty
    string are falsy, everything else (arrays and objects included) is
    truthy. *)
Definition truthy (v : jsval) : bool :=
  match v with
  | JUndefined => false
  | JNull => false
  | JBool b => b
  | JNum f => negb (PrimFloat.is_nan f || PrimFloat.is_zero f)
  | JStr s => negb (String.eqb s "")
  | JArr _ => true
  | JObj _ => true
  end.

(** [a || b] *)
Definition js_or (a b : jsval) : jsval :=
  if truthy a then a else b.

(** ** Documents *)

(** Identifiers generated by the persistence layer. *)
Definition ObjectId := N.

(** Identifiers of users come from the identity context as strings;
    [organizer.toString()] is compared with them as a string. *)
Definition UserId := string.

Record Coordinates : Type := { latitude : float; longitude : float }.

(** Modelled from the spec: the Event schema ([models/Event.js], not part of
    the sources): title, category, date (a timestamp, in milliseconds),
    status (default "upcoming"), coordinates and organizer. *)
Module EventSchema.
Record doc : Type := mk {
  _id : ObjectId;
  title : string;
  category : string;
  date : Z;
  status : string;
  coordinates : Coordinates;
  organizer : UserId
}.
End EventSchema.

(** Modelled from the spec: the Geofence schema ([models/Geofence.js], not
    part of the sources): event reference, center, radius, trafficImpact
    {level, description} and createdBy.  [radius] and [level] hold the value
    the controller hands to the persistence layer. *)
Module GeofenceSchema.
Record impact : Type := mkImpact {
  level : jsval;
  description : option string
}.
Record doc : Type := mk {
  _id : ObjectId;
  event : ObjectId;
  radius : jsval;
  center : Coordinates;
  trafficImpact : impact;
  createdBy : UserId
}.
End GeofenceSchema.

(** ** Requests *)

Module Req.
(** [req.user], attached by the authentication middleware. *)
Record user : Type := mkUser { id : UserId; role : string }.

(** [req.body].  The fields of the Event schema are typed as the schema
has them, [None] standing for an absent field; [geofenceRadius] and
[trafficImpact] are read by the controller itself and kept as JSON
values, [JUndefined] standing for an absent field. *)
Record body : Type := mkBody {
  title : option string;
  category : option string;
  date : option Z;
  status : option string;
  coordinates : option Coordinates;
  organizer : option UserId;
  geofenceRadius : jsval;
  trafficImpact : jsval
}.

(** [req.body.organizer = v] *)
Definition set_organizer (v : UserId) (b : body) : body :=
  mkBody (title b) (category b) (date b) (status b) (coordinates b)
         (Some v) (geofenceRadius b) (trafficImpact b).
End Req.

(** ** Errors and responses *)

Inductive exn : Type :=
| ErrorResponse (message : string) (statusCode : Z)
| ValidationError
| TypeError.

(** The organizer of a populated Event is replaced by the selected fields
    of the user document. *)
Record Populated : Type := mkPopulated {
  base : EventSchema.doc;
  organizerDoc : option (list (string * string))
}.

Inductive payload : Type :=
| DataEvent (e : EventSchema.doc)
| DataPopulated (e : Populated)
| DataEvents (l : list EventSchema.doc)
| DataPopulatedList (l : list Populated)
| DataEmpty
| DataNull.

(** [res.status(s).json({ success, count, data })] *)
Record Response : Type := mkResponse {
  status : Z;
  success : bool;
  count : option nat;
  data : payload
}.

(** ** The database and the handler monad *)

(** The two collections, in insertion order, and the next identifier the
    persistence layer hands out. *)
Record DB : Type := mkDB {
  events : list EventSchema.doc;
  geofences : list GeofenceSchema.doc;
  nextId : ObjectId
}.

Definition emptyDB : DB := mkDB [] [] 0%N.

Inductive outcome (A : Type) : Type :=
| Ok (a : A)
| Throw (e : exn).
Arguments Ok {A} a.
Arguments Throw {A} e.

(** An [async] handler step: it reads and writes the database and either
    returns or throws.  The database after a [Throw] is the one reached when
    the exception was raised. *)
Definition M (A : Type) : Type := DB -> DB * outcome A.

Definition ret {A} (a : A) : M A := fun db => (db, Ok a).
Definition throw {A} (e : exn) : M A := fun db => (db, Throw e).
Definition bind {A B} (m : M A) (k : A -> M B) : M B :=
  fun db =>
    match m db with
    | (db', Ok a) => k a db'
    | (db', Throw e) => (db', Throw e)
    end.

Declare Scope handler_scope.
Delimit Scope handler_scope with handler.
Notation "x <- m ;; k" := (bind m (fun x => k))
  (at level 100, m at next level, right associativity) : handler_scope.
Notation "'await' m ;; k" := (bind m (fun _ => k))
  (at level 100, m at next level, right associativity) : handler_scope.

(** ** The persistence layer *)

(** What the controller takes from its collaborators: the validators of the
    two schemas, run on every document about to be written, and the user
    collection read by [populate]. *)
Class Persistence : Type := {
  validEvent : EventSchema.doc -> bool;
  validGeofence : GeofenceSchema.doc -> bool;
  users : UserId -> option (list (string * string))
}.

(** The first element satisfying [p] is replaced by its image under [f]. *)
Fixpoint update_first {A} (p : A -> bool) (f : A -> A) (l : list A) : list A :=
  match l with
  | [] => []
  | x :: t => if p x then f x :: t else x :: update_first p f t
  end.

(** The first element satisfying [p] is dropped. *)
Fixpoint remove_first {A} (p : A -> bool) (l : list A) : list A :=
  match l with
  | [] => []
  | x :: t => if p x then t else x :: remove_first p t
  end.

(** [.sort(...)]: insertion into a list ordered by [le]. *)
Fixpoint insert_by {A} (le : A -> A -> bool) (x : A) (l : list A) : list A :=
  match l with
  | [] => [x]
  | y :: t => if le x y then x :: y :: t else y :: insert_by le x t
  end.

Definition sort_by {A} (le : A -> A -> bool) (l : list A) : list A :=
  fold_right (insert_by le) [] l.

(** Modelled from the spec: the Event model ([models/Event.js] is not part
    of the sources), a Mongoose model over the Event schema: document CRUD,
    filtering, sort and limit, and field projection. *)
Module Event.
Import EventSchema.

Definition byId (i : ObjectId) (e : doc) : bool := N.eqb (_id e) i.

(** A new document built from a request body: the schema's fields are
    taken from the body, [status] defaults to "upcoming"; a body lacking
    one of the other fields does not validate. *)
Definition cast (i : ObjectId) (b : Req.body) : option doc :=
  match Req.title b, Req.category b, Req.date b,
        Req.coordinates b, Req.organizer b with
  | Some t, Some c, Some d, Some xy, Some o =>
      Some (mk i t c d
               (match Req.status b with Some s => s | None => "upcoming" end)
               xy o)
  | _, _, _, _, _ => None
  end.

(** [Event.create(body)] *)
Definition create `{Persistence} (b : Req.body) : M doc :=
  fun db =>
    match cast (nextId db) b with
    | None => (db, Throw ValidationError)
    | Some e =>
        if validEvent e
        then (mkDB (events db ++ [e]) (geofences db) (N.succ (nextId db)),
              Ok e)
        else (db, Throw ValidationError)
    end.

(** [Event.findById(id)] *)
Definition findById (i : ObjectId) : M (option doc) :=
  fun db => (db, Ok (List.find (byId i) (events db))).

(** The fields present in the body replace those of the document. *)
Definition applyUpdate (b : Req.body) (e : doc) : doc :=
  mk (_id e)
     (match Req.title b with Some v => v | None => title e end)
     (match Req.category b with Some v => v | None => category e end)
     (match Req.date b with Some v => v | None => date e end)
     (match Req.status b with Some v => v | None => status e end)
     (match Req.coordinates b with Some v => v | None => coordinates e end)
     (match Req.organizer b with Some v => v | None => organizer e end).

(** [Event.findByIdAndUpdate(id, body, { new: true, runValidators: true })]:
    the updated document, or [null] when no document has that id. *)
Definition findByIdAndUpdate `{Persistence} (i : ObjectId) (b : Req.body)
  : M (option doc) :=
  fun db =>
    match List.find (byId i) (events db) with
    | None => (db, Ok None)
    | Some e =>
        let e' := applyUpdate b e in
        if validEvent e'
        then (mkDB (update_first (byId i) (applyUpdate b) (events db))
                   (geofences db) (nextId db),
              Ok (Some e'))
        else (db, Throw ValidationError)
    end.

(** [event.deleteOne()] *)
Definition deleteOne (e : doc) : M unit :=
  fun db =>
    (mkDB (remove_first (byId (_id e)) (events db)) (geofences db) (nextId db),
     Ok tt).

(** [Event.find(query)] *)
Definition find (query : doc -> bool) : M (list doc) :=
  fun db => (db, Ok (filter query (events db))).

(** [.populate({ path: 'organizer', select })] *)
Definition populate `{Persistence} (select : list string) (e : doc) : Populated :=
  mkPopulated e
    (match users (organizer e) with
     | Some u => Some (filter (fun kv => existsb (String.eqb (fst kv)) select) u)
     | None => None
     end).
End Event.

(** Modelled from the spec: the Geofence model ([models/Geofence.js] is not
    part of the sources), a Mongoose model over the Geofence schema. *)
Module Geofence.
Import GeofenceSchema.

(** The query [{ event: id }]. *)
Definition byEvent (i : ObjectId) (g : doc) : bool := N.eqb (event g) i.

(** [Geofence.create({ event, radius, center, trafficImpact, createdBy })] *)
Definition create `{Persistence} (ev : ObjectId) (r : jsval) (c : Coordinates)
    (ti : impact) (by_ : UserId) : M doc :=
  fun db =>
    let g := mk (nextId db) ev r c ti by_ in
    if validGeofence g
    then (mkDB (events db) (geofences db ++ [g]) (N.succ (nextId db)), Ok g)
    else (db, Throw ValidationError).

(** The update [{ center, radius, trafficImpact }]: the three fields are
    replaced, [trafficImpact] as a whole. *)
Definition applyUpdate (c : Coordinates) (r : jsval) (ti : impact) (g : doc)
  : doc :=
  mk (_id g) (event g) r c ti (createdBy g).

(** [Geofence.findOneAndUpdate({ event: id }, update,
      { new: true, runValidators: true })]: the first match is updated;
    [null] when there is none. *)
Definition findOneAndUpdate `{Persistence} (ev : ObjectId)
    (c : Coordinates) (r : jsval) (ti : impact) : M (option doc) :=
  fun db =>
    match List.find (byEvent ev) (geofences db) with
    | None => (db, Ok None)
    | Some g =>
        let g' := applyUpdate c r ti g in
        if validGeofence g'
        then (mkDB (events db)
                   (update_first (byEvent ev) (applyUpdate c r ti) (geofences db))
                   (nextId db),
              Ok (Some g'))
        else (db, Throw ValidationError)
    end.

(** [Geofence.findOneAndDelete({ event: id })]: the first match is
    removed; [null] when there is none. *)
Definition findOneAndDelete (ev : ObjectId) : M (option doc) :=
  fun db =>
    (mkDB (events db) (remove_first (byEvent ev) (geofences db)) (nextId db),
     Ok (List.find (byEvent ev) (geofences db))).
End Geofence.

(** ** The handlers *)

(** The rendering of an identifier inside an error message. *)
Definition oid_string (i : ObjectId) : string :=
  HexadecimalString.NilZero.string_of_uint (N.to_hex_uint i).

Section Handlers.
Context `{P : Persistence}.
Local Open Scope handler_scope.

(** [GET /api/events/:id] *)
Definition getEvent (id : ObjectId) : M Response :=
  event <- Event.findById id ;;
  match event with
  | None =>
      throw (ErrorResponse ("Event not found with id of " ++ oid_string id) 404)
  | Some event =>
      ret (mkResponse 200 true None
             (DataPopulated (Event.populate ["name"; "email"] event)))
  end.

(** [POST /api/events] *)
Definition createEvent (user : Req.user) (body0 : Req.body) : M Response :=
  (* Add user to req.body *)
  let body := Req.set_organizer (Req.id user) body0 in
  (* Check if user is an NGO or admin *)
  if negb (Req.role user =? "ngo") && negb (Req.role user =? "admin")
  then
    throw (ErrorResponse
             ("User with role " ++ Req.role user
                ++ " is not authorized to create an event")
             403)
  else
    event <- Event.create body ;;
    (* Create geofence for the event *)
    await Geofence.create
            (EventSchema._id event)
            (js_or (Req.geofenceRadius body) (JNum 500))
            {| latitude := latitude (EventSchema.coordinates event);
               longitude := longitude (EventSchema.coordinates event) |}
            (GeofenceSchema.mkImpact
               (js_or (Req.trafficImpact body) (JStr "low"))
               (Some ("Traffic impact for " ++ EventSchema.title event)))
            (Req.id user) ;;
    ret (mkResponse 201 true None (DataEvent event)).

(** [PUT /api/events/:id] *)
Definition updateEvent (user : Req.user) (id : ObjectId) (body : Req.body)
  : M Response :=
  event <- Event.findById id ;;
  match event with
  | None =>
      throw (ErrorResponse ("Event not found with id of " ++ oid_string id) 404)
  | Some event =>
      (* Make sure user is event organizer or admin *)
      if negb (EventSchema.organizer event =? Req.id user)
         && negb (Req.role user =? "admin")
      then
        throw (ErrorResponse
                 ("User " ++ Req.id user
                    ++ " is not authorized to update this event")
                 403)
      else
        event <- Event.findByIdAndUpdate id body ;;
        (* Update geofence if coordinates changed *)
        await match Req.coordinates body with
              | Some xy =>
                  match event with
                  | None => throw TypeError (* [event._id] of [null] *)
                  | Some event =>
                      await Geofence.findOneAndUpdate
                              (EventSchema._id event)
                              {| latitude := latitude xy;
                                 longitude := longitude xy |}
                              (js_or (Req.geofenceRadius body) (JNum 500))
                              (GeofenceSchema.mkImpact
                                 (js_or (Req.trafficImpact body) (JStr "low"))
                                 None) ;;
                      ret tt
                  end
              | None => ret tt
              end ;;
        ret (mkResponse 200 true None
               (match event with Some e => DataEvent e | None => DataNull end))
  end.

(** [DELETE /api/events/:id] *)
Definition deleteEvent (user : Req.user) (id : ObjectId) : M Response :=
  event <- Event.findById id ;;
  match event with
  | None =>
      throw (ErrorResponse ("Event not found with id of " ++ oid_string id) 404)
  | Some event =>
      (* Make sure user is event organizer or admin *)
      if negb (EventSchema.organizer event =? Req.id user)
         && negb (Req.role user =? "admin")
      then
        throw (ErrorResponse
                 ("User " ++ Req.id user
                    ++ " is not authorized to delete this event")
                 403)
      else
        (* Delete associated geofence *)
        await Geofence.findOneAndDelete (EventSchema._id event) ;;
        (* Delete the event *)
        await Event.deleteOne event ;;
        ret (mkResponse 200 true None DataEmpty)
  end.

(** [.sort({ date: 1 })] and [.sort({ date: -1 })] *)
Definition date_asc (a b : EventSchema.doc) : bool :=
  (EventSchema.date a <=? EventSchema.date b)%Z.
Definition date_desc (a b : EventSchema.doc) : bool :=
  (EventSchema.date b <=? EventSchema.date a)%Z.

(** [GET /api/events/upcoming]; [now] is the value of [new Date()]. *)
Definition getUpcomingEvents (now : Z) : M Response :=
  events <- Event.find (fun e => (now <=? EventSchema.date e)%Z
                                 && (EventSchema.status e =? "upcoming")) ;;
  let events :=
    map (Event.populate ["name"]) (firstn 10 (sort_by date_asc events)) in
  ret (mkResponse 200 true (Some (List.length events)) (DataPopulatedList events)).

(** [GET /api/events/category/:category] *)
Definition getEventsByCategory (now : Z) (category : string) : M Response :=
  events <- Event.find (fun e => (EventSchema.category e =? category)
                                 && (now <=? EventSchema.date e)%Z) ;;
  let events := map (Event.populate ["name"]) (sort_by date_asc events) in
  ret (mkResponse 200 true (Some (List.length events)) (DataPopulatedList events)).

(** [GET /api/events/user/:userId] *)
Definition getUserEvents (userId : UserId) : M Response :=
  events <- Event.find (fun e => EventSchema.organizer e =? userId) ;;
  let events := sort_by date_desc events in
  ret (mkResponse 200 true (Some (List.length events)) (DataEvents events)).

End Handlers.

(** ** The radius query *)

(** Modelled from the spec: the geospatial side of the persistence layer.
    [{ $geoWithin: { $centerSphere: [[longitude, latitude], radius] } }]
    holds of the coordinates that fall within the spherical cap of angular
    radius [radius], in radians, around the centre; which coordinates those
    are is decided by the database. *)
Class GeoIndex : Type := {
  centerSphere : float * float -> float -> Coordinates -> bool
}.

(** [GET /api/events/radius/...].  The route parameters are strings:
    [distance / 6378] converts [distance] to a number and the persistence
    layer converts the centre; the handler is given the numbers they
    denote. *)
Definition getEventsInRadius `{GeoIndex} (latitude longitude distance : float)
  : M Response :=
  (* Calculate radius using radians: divide distance by radius of Earth *)
  let radius := (distance / 6378)%float in
  bind (Event.find (fun e => centerSphere (longitude, latitude) radius
                               (EventSchema.coordinates e)))
       (fun events =>
          ret (mkResponse 200 true (Some (List.length events))
                 (DataEvents events))).

(** ** Handlers suspended at their awaits *)

(** Between two of its database calls a handler is suspended, and the other
    requests in flight go on: [others] is what they do to the database in
    the meantime. *)
Definition suspend (others : DB -> DB) : M unit :=
  fun db => (others db, Ok tt).

Section Awaiting.
Context `{P : Persistence}.
Variable others : nat -> DB -> DB.
Local Open Scope handler_scope.

(** [createEvent], suspended between [Event.create] and
    [Geofence.create]. *)
Definition createEvent_awaiting (user : Req.user) (body0 : Req.body)
  : M Response :=
  let body := Req.set_organizer (Req.id user) body0 in
  if negb (Req.role user =? "ngo") && negb (Req.role user =? "admin")
  then
    throw (ErrorResponse
             ("User with role " ++ Req.role user
                ++ " is not authorized to create an event")
             403)
  else
    event <- Event.create body ;;
    await suspend (others 1) ;;
    await Geofence.create
            (EventSchema._id event)
            (js_or (Req.geofenceRadius body) (JNum 500))
            {| latitude := latitude (EventSchema.coordinates event);
               longitude := longitude (EventSchema.coordinates event) |}
            (GeofenceSchema.mkImpact
               (js_or (Req.trafficImpact body) (JStr "low"))
               (Some ("Traffic impact for " ++ EventSchema.title event)))
            (Req.id user) ;;
    ret (mkResponse 201 true None (DataEvent event)).

(** [updateEvent], suspended between [Event.findById] and
    [Event.findByIdAndUpdate], and between the latter and
    [Geofence.findOneAndUpdate]. *)
Definition updateEvent_awaiting (user : Req.user) (id : ObjectId)
    (body : Req.body) : M Response :=
  event <- Event.findById id ;;
  match event with
  | None =>
      throw (ErrorResponse ("Event not found with id of " ++ oid_string id) 404)
  | Some event =>
      if negb (EventSchema.organizer event =? Req.id user)
         && negb (Req.role user =? "admin")
      then
        throw (ErrorResponse
                 ("User " ++ Req.id user
                    ++ " is not authorized to update this event")
                 403)
      else
        await suspend (others 1) ;;
        event <- Event.findByIdAndUpdate id body ;;
        await match Req.coordinates body with
              | Some xy =>
                  match event with
                  | None => throw TypeError (* [event._id] of [null] *)
                  | Some event =>
                      await suspend (others 2) ;;
                      await Geofence.findOneAndUpdate
                              (EventSchema._id event)
                              {| latitude := latitude xy;
                                 longitude := longitude xy |}
                              (js_or (Req.geofenceRadius body) (JNum 500))
                              (GeofenceSchema.mkImpact
                                 (js_or (Req.trafficImpact body) (JStr "low"))
                                 None) ;;
                      ret tt
                  end
              | None => ret tt
              end ;;
        ret (mkResponse 200 true None
               (match event with Some e => DataEvent e | None => DataNull end))
  end.

End Awaiting.

(** ** Specification vocabulary *)

(** The Event a request id resolves to. *)
Definition resolves (db : DB) (i : ObjectId) : option EventSchema.doc :=
  find (Event.byId i) (events db).

(** The Geofence paired with an Event: the one the query [{ event: id }]
    returns. *)
Definition paired (db : DB) (i : ObjectId) : option GeofenceSchema.doc :=
  find (Geofence.byEvent i) (geofences db).

(** The caller may update or delete the Event. *)
Definition may_modify (user : Req.user) (e : EventSchema.doc) : bool :=
  (EventSchema.organizer e =? Req.id user) || (Req.role user =? "admin").

(** The caller may create Events. *)
Definition may_create (user : Req.user) : bool :=
  (Req.role user =? "ngo") || (Req.role user =? "admin").

(** Well-formed databases: identifiers were all handed out by the database
    (they are below [nextId]) and are unique within a collection, and no two
    Geofences reference the same Event. *)
Record wf (db : DB) : Prop := mkWf {
  wf_event_ids :
    Forall (fun e => (EventSchema._id e < nextId db)%N) (events db);
  wf_geofence_ids :
    Forall (fun g => (GeofenceSchema._id g < nextId db)%N
                     /\ (GeofenceSchema.event g < nextId db)%N) (geofences db);
  wf_event_unique : NoDup (map EventSchema._id (events db));
  wf_geofence_unique : NoDup (map GeofenceSchema._id (geofences db));
  wf_one_geofence : NoDup (map GeofenceSchema.event (geofences db))
}.

(** *** Requests and histories *)

Inductive Request : Type :=
| Create (body : Req.body)
| Update (id : ObjectId) (body : Req.body)
| Delete (id : ObjectId).

Definition handle `{Persistence} (user : Req.user) (r : Request) : M Response :=
  match r with
  | Create body => createEvent user body
  | Update id body => updateEvent user id body
  | Delete id => deleteEvent user id
  end.

(** A history pairs the database with a record of who created which Event.
    The record is bookkeeping of the specification: the code stores no such
    thing besides the [organizer] field itself. *)
Definition creators := list (ObjectId * UserId).

Definition creator_of (log : creators) (i : ObjectId) : option UserId :=
  match find (fun p => N.eqb (fst p) i) log with
  | Some p => Some (snd p)
  | None => None
  end.

(** The Events of [after] whose id is not in [before]. *)
Definition created (before after : DB) : list EventSchema.doc :=
  filter (fun e => negb (existsb (Event.byId (EventSchema._id e)) (events before)))
         (events after).

Definition step `{Persistence} (s : DB * creators) (ur : Req.user * Request)
  : DB * creators :=
  let db' := fst (handle (fst ur) (snd ur) (fst s)) in
  (db',
   (snd s ++ map (fun e => (EventSchema._id e, Req.id (fst ur)))
                 (created (fst s) db'))%list).

Definition run `{Persistence} (trace : list (Req.user * Request))
  : DB * creators :=
  fold_left step trace (emptyDB, []).

(** Every stored Event's organizer is the user who created it. *)
Definition organizer_invariant (s : DB * creators) : Prop :=
  forall e, In e (events (fst s)) ->
            creator_of (snd s) (EventSchema._id e) = Some (EventSchema.organizer e).

(** The request leaves the [organizer] field alone. *)
Definition keeps_organizer (r : Request) : bool :=
  match r with
  | Update _ body =>
      match Req.organizer body with Some _ => false | None => true end
  | _ => true
  end.

(** What is carried along a history to keep the invariant: the database is
    well-formed and the record only mentions identifiers already handed
    out. *)
Definition history_ok (s : DB * creators) : Prop :=
  wf (fst s)
  /\ organizer_invariant s
  /\ Forall (fun p => (fst p < nextId (fst s))%N) (snd s).

(** *** The Geofence fields as the claims word them *)

(** "the request's geofenceRadius if supplied and 500 otherwise" *)
Definition radius_if_supplied (b : Req.body) : jsval :=
  match Req.geofenceRadius b with
  | JUndefined => JNum 500
  | v => v
  end.

(** "the request's trafficImpact if supplied and "low" otherwise" *)
Definition level_if_supplied (b : Req.body) : jsval :=
  match Req.trafficImpact b with
  | JUndefined => JStr "low"
  | v => v
  end.

(** Claim C4 as it is worded: a successful Create leaves exactly one
    Geofence for the new Event, centred on it, with the radius and level
    "if supplied". *)
Definition create_as_claimed `{Persistence}
    (user : Req.user) (body : Req.body) (db : DB) : Prop :=
  forall db' r,
    createEvent user body db = (db', Ok r) ->
    exists e g,
      r = mkResponse 201 true None (DataEvent e)
      /\ filter (Geofence.byEvent (EventSchema._id e)) (geofences db') = [g]
      /\ GeofenceSchema.center g = EventSchema.coordinates e
      /\ GeofenceSchema.radius g = radius_if_supplied body
      /\ GeofenceSchema.level (GeofenceSchema.trafficImpact g)
         = level_if_supplied body.

(** Claim C5 as it is worded: an Update carrying coordinates sets the paired
    Geofence's center, and its radius and level "if supplied"; without a
    paired Geofence nothing happens to the Geofences. *)
Definition update_as_claimed `{Persistence}
    (user : Req.user) (id : ObjectId) (body : Req.body) (db : DB) : Prop :=
  forall xy db' r,
    Req.coordinates body = Some xy ->
    updateEvent user id body db = (db', Ok r) ->
    match paired db id with
    | Some _ =>
        exists g',
          paired db' id = Some g'
          /\ GeofenceSchema.center g' = xy
          /\ GeofenceSchema.radius g' = radius_if_supplied body
          /\ GeofenceSchema.level (GeofenceSchema.trafficImpact g')
             = level_if_supplied body
    | None => geofences db' = geofences db
    end.



(** ** Sample data *)

(** Modelled from the spec: schema validators in which a Geofence's radius
    is numeric and its trafficImpact level is one of low, medium, high;
    Events carry no further constraint and no user document is known. *)
Definition sampleSchemas : Persistence := {|
  validEvent := fun _ => true;
  validGeofence := fun g =>
    match GeofenceSchema.radius g,
          GeofenceSchema.level (GeofenceSchema.trafficImpact g) with
    | JNum _, JStr l => (l =? "low") || (l =? "medium") || (l =? "high")
    | _, _ => false
    end;
  users := fun _ => None
|}.

Definition alice : Req.user := Req.mkUser "alice" "ngo".
Definition bob : Req.user := Req.mkUser "bob" "citizen".
Definition root : Req.user := Req.mkUser "root" "admin".

Definition philadelphia : Coordinates := {| latitude := 40; longitude := -75 |}.
Definition pune : Coordinates := {| latitude := 18.5; longitude := 73.875 |}.

(** A complete body naming somebody else as organizer; no radius, no
    traffic impact. *)
Definition fair : Req.body :=
  Req.mkBody (Some "Street fair") (Some "community") (Some 1800000000000%Z)
             None (Some philadelphia) (Some "mallory") JUndefined JUndefined.

(** The same with a radius of 0 and an empty traffic impact. *)
Definition fair_zero : Req.body :=
  Req.mkBody (Some "Street fair") (Some "community") (Some 1800000000000%Z)
             None (Some philadelphia) None (JNum 0) (JStr "").

(** The same with a radius of 300 and a high traffic impact. *)
Definition fair_300 : Req.body :=
  Req.mkBody (Some "Street fair") (Some "community") (Some 1800000000000%Z)
             None (Some philadelphia) None (JNum 300) (JStr "high").

(** An update that moves the Event and nothing else. *)
Definition move : Req.body :=
  Req.mkBody None None None None (Some pune) None JUndefined JUndefined.

(** An update that moves the Event and supplies 0 and "". *)
Definition move_zero : Req.body :=
  Req.mkBody None None None None (Some pune) None (JNum 0) (JStr "").

(** An update that hands the Event over to somebody else. *)
Definition hand_over : Req.body :=
  Req.mkBody None None None None None (Some "mallory") JUndefined JUndefined.

(** The database after alice created [fair_300]. *)
Definition one_fair : DB :=
  fst (@createEvent sampleSchemas alice fair_300 emptyDB).

(** A body whose radius is not a number: the Event validates, the
    Geofence does not. *)
Definition fair_wide : Req.body :=
  Req.mkBody (Some "Street fair") (Some "community") (Some 1800000000000%Z)
             None (Some philadelphia) None (JStr "wide") JUndefined.

(** The database after alice tried to create [fair_wide]: the Event is
    there, without a Geofence. *)
Definition lone_fair : DB :=
  fst (@createEvent sampleSchemas alice fair_wide emptyDB).

(** A calendar holding a past Event, a cancelled one and two upcoming ones
    stored out of order. *)
Definition calendar : DB :=
  mkDB [EventSchema.mk 0%N "Gala" "culture" 300%Z "upcoming" philadelphia "alice";
        EventSchema.mk 1%N "Parade" "culture" 100%Z "upcoming" philadelphia "alice";
        EventSchema.mk 2%N "Derby" "sport" 250%Z "cancelled" pune "root";
        EventSchema.mk 3%N "Run" "sport" 200%Z "upcoming" pune "root"]
       [] 4%N.

(** Twelve upcoming Events, the latest stored first. *)
Definition crowded : DB :=
  mkDB (map (fun n => EventSchema.mk (N.of_nat n) "Match" "sport"
                        (1000 - Z.of_nat n)%Z "upcoming" pune "root")
            (seq 0 12))
       [] 12%N.

(** The dates of the Events in an answer. *)
Definition dates_of (o : DB * outcome Response) : list Z :=
  match snd o with
  | Ok r =>
      match data r with
      | DataPopulatedList l => map (fun p => EventSchema.date (base p)) l
      | DataEvents l => map EventSchema.date l
      | _ => []
      end
  | Throw _ => []
  end.

(** Referential integrity: every Geofence references a stored Event. *)
Definition no_orphans (db : DB) : Prop :=
  forall g, In g (geofences db) ->
            exists e, In e (events db)
                      /\ EventSchema._id e = GeofenceSchema.event g.

(** Modelled from the spec: a spherical cap, for coordinates in degrees.
    A point lies in the cap when the cosine of its central angle to the
    centre, by the spherical law of cosines, is at least the cosine of the
    angular radius; sine and cosine are summed from their power series. *)
Definition pi : float := 0x1.921fb54442d18p+1.

Fixpoint power_series (n : nat) (x2 term k acc : float) : float :=
  match n with
  | O => acc
  | S m =>
      let term' := (- term * x2 / ((k + 1) * (k + 2)))%float in
      power_series m x2 term' (k + 2)%float (acc + term')%float
  end.

Definition sine (x : float) : float := power_series 30 (x * x) x 1 x.
Definition cosine (x : float) : float := power_series 30 (x * x) 1 0 1.
Definition radians (degrees : float) : float := (degrees * pi / 180)%float.

Definition cos_central_angle (centre : float * float) (p : Coordinates) : float :=
  (sine (radians (snd centre)) * sine (radians (latitude p))
   + cosine (radians (snd centre)) * cosine (radians (latitude p))
     * cosine (radians (longitude p - fst centre)))%float.

Definition sampleSphere : GeoIndex := {|
  centerSphere := fun centre radius p =>
    (0 <=? radius)%float
    && ((pi <=? radius)%float
        || (cosine radius <=? cos_central_angle centre p)%float)
|}.

(** One Event, stored at latitude -0.0, longitude 0. *)
Definition null_island : DB :=
  mkDB [EventSchema.mk 0%N "Regatta" "sport" 300%Z "upcoming"
          {| latitude := (-0)%float; longitude := 0%float |} "alice"]
       [] 1%N.

(** An update that moves the Event and asks for a radius that is not a
    number. *)
Definition move_wide : Req.body :=
  Req.mkBody None None None None (Some pune) None (JStr "wide") JUndefined.

(** The database after alice created [fair_300] and then [fair_zero]. *)
Definition two_fairs : DB :=
  fst (@createEvent sampleSchemas alice fair_zero one_fair).

(** * Properties *)

(** ** Truthiness *)

Example truthy_table :
  map truthy [JUndefined; JNull; JBool false; JNum 0; JNum (-0); JNum nan;
              JStr ""; JBool true; JNum 500; JNum (-1); JStr "low"; JStr "0";
              JArr []; JObj []]
  = [false; false; false; false; false; false; false;
     true; true; true; true; true; true; true].
Proof. reflexivity. Qed.

Example js_or_radius :
  map (fun v => js_or v (JNum 500)) [JUndefined; JNum 0; JNum 300; JStr "wide"]
  = [JNum 500; JNum 500; JNum 300; JStr "wide"].
Proof. reflexivity. Qed.

(** ** Facts about the list operations *)

Section ListFacts.
Context {A : Type}.
Variable p : A -> bool.

Lemma update_first_none (f : A -> A) (l : list A) :
  find p l = None -> update_first p f l = l.
Proof.
  induction l as [|x t IH]; simpl; [reflexivity|].
  destruct (p x); [discriminate|].
  intro H. now rewrite IH.
Qed.

Lemma find_update_first (f : A -> A) (l : list A) (x : A) :
  find p l = Some x -> p (f x) = true ->
  find p (update_first p f l) = Some (f x).
Proof.
  induction l as [|y t IH]; simpl; [discriminate|].
  destruct (p y) eqn:Hy; intros H Hf.
  - injection H as ->. simpl. now rewrite Hf.
  - simpl. rewrite Hy. now apply IH.
Qed.

Lemma in_update_first (f : A -> A) (l : list A) (y : A) :
  In y (update_first p f l) ->
  In y l \/ exists x, In x l /\ p x = true /\ y = f x.
Proof.
  induction l as [|x t IH]; simpl; [tauto|].
  destruct (p x) eqn:Hx; simpl.
  - intros [<-|H]; [right; exists x; tauto | tauto].
  - intros [<-|H]; [tauto|].
    destruct (IH H) as [H'|(z & Hz & Hp & ->)]; [tauto|].
    right. exists z. tauto.
Qed.

Lemma update_first_map_key {K : Type} (key : A -> K) (f : A -> A) (l : list A) :
  (forall x, key (f x) = key x) ->
  map key (update_first p f l) = map key l.
Proof.
  intro Hk. induction l as [|x t IH]; simpl; [reflexivity|].
  destruct (p x); simpl; [now rewrite Hk | now rewrite IH].
Qed.

Lemma Forall_update_first (Q : A -> Prop) (f : A -> A) (l : list A) :
  (forall x, Q x -> Q (f x)) -> Forall Q l -> Forall Q (update_first p f l).
Proof.
  intros Hf H. induction H as [|x t Hx Ht IH]; simpl; [constructor|].
  destruct (p x); constructor; auto.
Qed.

Lemma update_first_other (f : A -> A) (l : list A) (y : A) :
  In y l -> p y = false -> In y (update_first p f l).
Proof.
  induction l as [|x t IH]; simpl; [tauto|].
  intros [->|H] Hy.
  - rewrite Hy. now left.
  - destruct (p x); simpl; auto.
Qed.

Lemma remove_first_none (l : list A) :
  find p l = None -> remove_first p l = l.
Proof.
  induction l as [|x t IH]; simpl; [reflexivity|].
  destruct (p x); [discriminate|].
  intro H. now rewrite IH.
Qed.

Lemma remove_first_split (l : list A) (x : A) :
find p l = Some x ->
exists l1 l2, l = (l1 ++ x :: l2)%list /\ remove_first p l = (l1 ++ l2)%list.
Proof.
induction l as [|y t IH]; simpl; [discriminate|].
destruct (p y).
- intro H. injection H as ->. now exists [], t.
- intro H. destruct (IH H) as (l1 & l2 & -> & ->).
  now exists (y :: l1), l2.
Qed.

Lemma in_remove_first (l : list A) (y : A) :
  In y (remove_first p l) -> In y l.
Proof.
  induction l as [|x t IH]; simpl; [tauto|].
  destruct (p x); simpl; [tauto|].
  intros [H|H]; auto.
Qed.

Lemma remove_first_other (l : list A) (y : A) :
  In y l -> p y = false -> In y (remove_first p l).
Proof.
  induction l as [|x t IH]; simpl; [tauto|].
  intros [->|H] Hy.
  - rewrite Hy. now left.
  - destruct (p x); simpl; auto.
Qed.

Lemma Forall_remove_first (Q : A -> Prop) (l : list A) :
  Forall Q l -> Forall Q (remove_first p l).
Proof.
  intro H. induction H as [|x t Hx Ht IH]; simpl; [constructor|].
  destruct (p x); auto.
Qed.

Lemma NoDup_remove_first {K : Type} (key : A -> K) (l : list A) :
  NoDup (map key l) -> NoDup (map key (remove_first p l)).
Proof.
  induction l as [|x t IH]; simpl; [auto|].
  intro H. inversion H as [|? ? Hn Ht]; subst.
  destruct (p x); [assumption|].
  simpl. constructor; [|auto].
  intro Hin. apply Hn.
  apply in_map_iff in Hin. destruct Hin as (y & Hy & Hin).
  apply in_map_iff. exists y. split; [assumption|].
  now apply in_remove_first.
Qed.

Lemma find_none_forall (l : list A) :
  find p l = None <-> (forall x, In x l -> p x = false).
Proof.
  split.
  - apply find_none.
  - induction l as [|x t IH]; simpl; [reflexivity|].
    intro H. rewrite (H x (or_introl eq_refl)). apply IH. auto.
Qed.
End ListFacts.

(** With unique keys, dropping the first element of key [i] leaves no
    element of key [i]. *)
Lemma remove_first_key_gone {A : Type} (key : A -> N) (i : N) (l : list A) :
  NoDup (map key l) ->
  forall y, In y (remove_first (fun x => N.eqb (key x) i) l) -> key y <> i.
Proof.
  induction l as [|x t IH]; simpl; [tauto|].
  intros H y. inversion H as [|? ? Hn Ht]; subst.
  destruct (N.eqb (key x) i) eqn:Hx.
  - apply N.eqb_eq in Hx. intros Hy Heq. apply Hn.
    rewrite Hx, <- Heq. now apply in_map.
  - simpl. intros [<-|Hy]; [now apply N.eqb_neq | now apply IH].
Qed.

(** With unique keys, [find] by key returns the element of that key. *)
Lemma find_key_unique {A : Type} (key : A -> N) (i : N) (l : list A) (x : A) :
  NoDup (map key l) -> In x l -> key x = i ->
  find (fun y => N.eqb (key y) i) l = Some x.
Proof.
  induction l as [|y t IH]; simpl; [tauto|].
  intros H Hin Hk. inversion H as [|? ? Hn Ht]; subst.
  destruct Hin as [->|Hin].
  - now rewrite N.eqb_refl.
  - destruct (N.eqb (key y) (key x)) eqn:Hy; [|now apply IH].
    apply N.eqb_eq in Hy. exfalso. apply Hn. rewrite Hy. now apply in_map.
Qed.

(** *** Sorting *)

Section Sorting.
Context {A : Type}.
Variable le : A -> A -> bool.
Hypothesis le_total : forall a b, le a b = false -> le b a = true.
Hypothesis le_trans : forall a b c, le a b = true -> le b c = true -> le a c = true.

Lemma insert_by_perm (x : A) (l : list A) :
  Permutation (insert_by le x l) (x :: l).
Proof.
  induction l as [|y t IH]; simpl; [reflexivity|].
  destruct (le x y); [reflexivity|].
  rewrite IH. apply perm_swap.
Qed.

Lemma sort_by_perm (l : list A) : Permutation (sort_by le l) l.
Proof.
  induction l as [|x t IH]; simpl; [reflexivity|].
  rewrite insert_by_perm. now constructor.
Qed.

Lemma insert_by_sorted (x : A) (l : list A) :
  StronglySorted (fun a b => le a b = true) l ->
  StronglySorted (fun a b => le a b = true) (insert_by le x l).
Proof.
  induction 1 as [|y t Ht IH Hy]; simpl.
  - repeat constructor.
  - destruct (le x y) eqn:Hxy.
    + constructor; [now constructor|].
      constructor; [assumption|].
      eapply Forall_impl; [|exact Hy].
      intros a Ha. now apply le_trans with y.
    + constructor; [assumption|].
      eapply Permutation_Forall; [symmetry; apply insert_by_perm|].
      constructor; [now apply le_total | assumption].
Qed.

Lemma sort_by_sorted (l : list A) :
  StronglySorted (fun a b => le a b = true) (sort_by le l).
Proof.
  induction l as [|x t IH]; simpl; [constructor | now apply insert_by_sorted].
Qed.
End Sorting.

Lemma in_firstn {A : Type} (n : nat) (l : list A) (y : A) :
  In y (firstn n l) -> In y l.
Proof.
  revert n. induction l as [|z t IH]; intros [|n]; simpl; try tauto.
  intros [H|H]; eauto.
Qed.

Lemma StronglySorted_firstn {A : Type} (R : A -> A -> Prop) (n : nat) (l : list A) :
  StronglySorted R l -> StronglySorted R (firstn n l).
Proof.
  intro H. revert n. induction H as [|x t Ht IH Hx]; intro n.
  - rewrite firstn_nil. constructor.
  - destruct n as [|n]; simpl; [constructor|].
    constructor; [apply IH|].
    rewrite Forall_forall in *. intros y Hy. apply Hx.
    now apply in_firstn with n.
Qed.

(** ** The handlers, case by case *)

Lemma byId_true (i : ObjectId) (e : EventSchema.doc) :
  Event.byId i e = true <-> EventSchema._id e = i.
Proof. unfold Event.byId. apply N.eqb_eq. Qed.

Lemma byEvent_true (i : ObjectId) (g : GeofenceSchema.doc) :
  Geofence.byEvent i g = true <-> GeofenceSchema.event g = i.
Proof. unfold Geofence.byEvent. apply N.eqb_eq. Qed.

Lemma resolves_some (db : DB) (i : ObjectId) (e : EventSchema.doc) :
  resolves db i = Some e -> In e (events db) /\ EventSchema._id e = i.
Proof.
  intro H. apply find_some in H. now rewrite byId_true in H.
Qed.

Lemma resolves_none (db : DB) (i : ObjectId) :
  resolves db i = None <->
  (forall e, In e (events db) -> EventSchema._id e <> i).
Proof.
  unfold resolves. rewrite find_none_forall.
  split; intros H e He; specialize (H e He).
  - intro Heq. apply byId_true in Heq. congruence.
  - destruct (Event.byId i e) eqn:Hb; [|reflexivity].
    apply byId_true in Hb. contradiction.
Qed.

Lemma paired_some (db : DB) (i : ObjectId) (g : GeofenceSchema.doc) :
  paired db i = Some g -> In g (geofences db) /\ GeofenceSchema.event g = i.
Proof.
  intro H. apply find_some in H. now rewrite byEvent_true in H.
Qed.

Lemma paired_none (db : DB) (i : ObjectId) :
  paired db i = None <->
  (forall g, In g (geofences db) -> GeofenceSchema.event g <> i).
Proof.
  unfold paired. rewrite find_none_forall.
  split; intros H g Hg; specialize (H g Hg).
  - intro Heq. apply byEvent_true in Heq. congruence.
  - destruct (Geofence.byEvent i g) eqn:Hb; [|reflexivity].
    apply byEvent_true in Hb. contradiction.
Qed.

Lemma cast_organizer (i : ObjectId) (u : UserId) (b : Req.body)
    (e : EventSchema.doc) :
  Event.cast i (Req.set_organizer u b) = Some e ->
  EventSchema._id e = i /\ EventSchema.organizer e = u
  /\ Req.coordinates b = Some (EventSchema.coordinates e).
Proof.
  unfold Event.cast, Req.set_organizer. simpl.
  destruct (Req.title b), (Req.category b), (Req.date b), (Req.coordinates b);
    try discriminate.
  intro H. injection H as <-. auto.
Qed.

Lemma coordinates_eta (xy : Coordinates) :
  {| latitude := latitude xy; longitude := longitude xy |} = xy.
Proof. now destruct xy. Qed.

Ltac handler_unfold :=
  unfold createEvent, updateEvent, deleteEvent, getUpcomingEvents,
    Event.create, Event.findById, Event.findByIdAndUpdate, Event.deleteOne,
    Event.find, Geofence.create, Geofence.findOneAndUpdate,
    Geofence.findOneAndDelete, bind, ret, throw, may_create, may_modify,
    resolves, paired in *.

Section Cases.
Context `{P : Persistence}.
Variables (user : Req.user) (db : DB).

Lemma createEvent_denied (body : Req.body) :
  may_create user = false ->
  createEvent user body db
  = (db, Throw (ErrorResponse
                  ("User with role " ++ Req.role user
                     ++ " is not authorized to create an event") 403)).
Proof.
  handler_unfold. intro H. apply orb_false_elim in H as [-> ->]. reflexivity.
Qed.

Lemma createEvent_allowed (body : Req.body) :
  may_create user = true ->
  createEvent user body db
  = match Event.cast (nextId db) (Req.set_organizer (Req.id user) body) with
    | None => (db, Throw ValidationError)
    | Some e =>
        if validEvent e then
          let g := GeofenceSchema.mk
                     (N.succ (nextId db)) (EventSchema._id e)
                     (js_or (Req.geofenceRadius body) (JNum 500))
                     (EventSchema.coordinates e)
                     (GeofenceSchema.mkImpact
                        (js_or (Req.trafficImpact body) (JStr "low"))
                        (Some ("Traffic impact for " ++ EventSchema.title e)))
                     (Req.id user) in
          if validGeofence g
          then (mkDB (events db ++ [e]) (geofences db ++ [g])
                     (N.succ (N.succ (nextId db))),
                Ok (mkResponse 201 true None (DataEvent e)))
          else (mkDB (events db ++ [e]) (geofences db) (N.succ (nextId db)),
                Throw ValidationError)
        else (db, Throw ValidationError)
    end.
Proof.
  handler_unfold. intro H.
  assert (negb (Req.role user =? "ngo") && negb (Req.role user =? "admin")
          = false) as ->.
  { rewrite <- negb_orb, H. reflexivity. }
  destruct (Event.cast _ _) as [e|]; [|reflexivity].
  destruct (validEvent e); [|reflexivity].
  cbn [events geofences nextId]. rewrite coordinates_eta.
  destruct (validGeofence _); reflexivity.
Qed.

Lemma updateEvent_notfound (id : ObjectId) (body : Req.body) :
  resolves db id = None ->
  updateEvent user id body db
  = (db, Throw (ErrorResponse
                  ("Event not found with id of " ++ oid_string id) 404)).
Proof. handler_unfold. intros ->. reflexivity. Qed.

Lemma updateEvent_denied (id : ObjectId) (body : Req.body)
    (e : EventSchema.doc) :
  resolves db id = Some e -> may_modify user e = false ->
  updateEvent user id body db
  = (db, Throw (ErrorResponse
                  ("User " ++ Req.id user
                     ++ " is not authorized to update this event") 403)).
Proof.
  handler_unfold. intros -> H. apply orb_false_elim in H as [-> ->].
  reflexivity.
Qed.

Lemma updateEvent_allowed (id : ObjectId) (body : Req.body)
    (e : EventSchema.doc) :
  resolves db id = Some e -> may_modify user e = true ->
  updateEvent user id body db
  = let e' := Event.applyUpdate body e in
    let evs := update_first (Event.byId id) (Event.applyUpdate body) (events db) in
    let ok := Ok (mkResponse 200 true None (DataEvent e')) in
    if validEvent e' then
      match Req.coordinates body with
      | None => (mkDB evs (geofences db) (nextId db), ok)
      | Some xy =>
          match paired db id with
          | None => (mkDB evs (geofences db) (nextId db), ok)
          | Some g =>
              let upd := Geofence.applyUpdate xy
                           (js_or (Req.geofenceRadius body) (JNum 500))
                           (GeofenceSchema.mkImpact
                              (js_or (Req.trafficImpact body) (JStr "low"))
                              None) in
              if validGeofence (upd g)
              then (mkDB evs (update_first (Geofence.byEvent id) upd (geofences db))
                         (nextId db), ok)
              else (mkDB evs (geofences db) (nextId db), Throw ValidationError)
          end
      end
    else (db, Throw ValidationError).
Proof.
  intros Hr Hm. pose proof (resolves_some _ _ _ Hr) as [_ Hid].
  handler_unfold. rewrite Hr.
  assert (negb (EventSchema.organizer e =? Req.id user)
          && negb (Req.role user =? "admin") = false) as ->.
  { rewrite <- negb_orb, Hm. reflexivity. }
  rewrite Hr. cbv zeta.
  destruct (validEvent _); [|reflexivity].
  destruct (Req.coordinates body) as [xy|]; [|reflexivity].
  cbn [events geofences nextId EventSchema._id Event.applyUpdate].
  rewrite Hid, coordinates_eta.
  destruct (find (Geofence.byEvent id) (geofences db)) as [g|]; [|reflexivity].
  destruct (validGeofence _); reflexivity.
Qed.

Lemma deleteEvent_notfound (id : ObjectId) :
  resolves db id = None ->
  deleteEvent user id db
  = (db, Throw (ErrorResponse
                  ("Event not found with id of " ++ oid_string id) 404)).
Proof. handler_unfold. intros ->. reflexivity. Qed.

Lemma deleteEvent_denied (id : ObjectId) (e : EventSchema.doc) :
  resolves db id = Some e -> may_modify user e = false ->
  deleteEvent user id db
  = (db, Throw (ErrorResponse
                  ("User " ++ Req.id user
                     ++ " is not authorized to delete this event") 403)).
Proof.
  handler_unfold. intros -> H. apply orb_false_elim in H as [-> ->].
  reflexivity.
Qed.

Lemma deleteEvent_allowed (id : ObjectId) (e : EventSchema.doc) :
  resolves db id = Some e -> may_modify user e = true ->
  deleteEvent user id db
  = (mkDB (remove_first (Event.byId id) (events db))
          (remove_first (Geofence.byEvent id) (geofences db))
          (nextId db),
     Ok (mkResponse 200 true None DataEmpty)).
Proof.
  intros Hr Hm. pose proof (resolves_some _ _ _ Hr) as [_ Hid].
  handler_unfold. rewrite Hr.
  assert (negb (EventSchema.organizer e =? Req.id user)
          && negb (Req.role user =? "admin") = false) as ->.
  { rewrite <- negb_orb, Hm. reflexivity. }
  cbn [events geofences nextId]. rewrite Hid. reflexivity.
Qed.
End Cases.

(** ** Well-formedness is kept by every handler *)

Lemma NoDup_snoc {A : Type} (l : list A) (x : A) :
  NoDup l -> ~ In x l -> NoDup (l ++ [x]).
Proof.
  intros Hl Hx. apply Permutation_NoDup with (x :: l).
  - apply Permutation_cons_append.
  - now constructor.
Qed.

Lemma wf_empty : wf emptyDB.
Proof. split; simpl; constructor. Qed.

Lemma wf_add_event (db : DB) (e : EventSchema.doc) :
  wf db -> EventSchema._id e = nextId db ->
  wf (mkDB (events db ++ [e]) (geofences db) (N.succ (nextId db))).
Proof.
  intros [He Hg Hue Hug Hone] Hid. split; simpl.
  - apply Forall_app. split.
    + eapply Forall_impl; [|exact He]. simpl. intros; lia.
    + repeat constructor. lia.
  - eapply Forall_impl; [|exact Hg]. simpl. intros; lia.
  - rewrite map_app. simpl. apply NoDup_snoc; [assumption|].
    intro Hin. apply in_map_iff in Hin as (x & Hx & Hin).
    rewrite Forall_forall in He. specialize (He x Hin). simpl in He. lia.
  - assumption.
  - assumption.
Qed.

Lemma wf_add_geofence (db : DB) (g : GeofenceSchema.doc) :
  wf db -> GeofenceSchema._id g = nextId db ->
  (GeofenceSchema.event g < nextId db)%N ->
  paired db (GeofenceSchema.event g) = None ->
  wf (mkDB (events db) (geofences db ++ [g]) (N.succ (nextId db))).
Proof.
  intros [He Hg Hue Hug Hone] Hid Hev Hnone. split; simpl.
  - eapply Forall_impl; [|exact He]. simpl. intros; lia.
  - apply Forall_app. split.
    + eapply Forall_impl; [|exact Hg]. simpl. intros; lia.
    + repeat constructor; lia.
  - assumption.
  - rewrite map_app. simpl. apply NoDup_snoc; [assumption|].
    intro Hin. apply in_map_iff in Hin as (x & Hx & Hin).
    rewrite Forall_forall in Hg. specialize (Hg x Hin). simpl in Hg. lia.
  - rewrite map_app. simpl. apply NoDup_snoc; [assumption|].
    intro Hin. apply in_map_iff in Hin as (x & Hx & Hin).
    rewrite paired_none in Hnone. now apply (Hnone x Hin).
Qed.

(** No Geofence references an identifier that is still to be handed out. *)
Lemma paired_fresh (db : DB) (i : ObjectId) :
  wf db -> (nextId db <= i)%N -> paired db i = None.
Proof.
  intros [_ Hg _ _ _] Hi. apply paired_none. intros g Hin.
  rewrite Forall_forall in Hg. specialize (Hg g Hin). simpl in Hg. lia.
Qed.

(** In a well-formed database an id resolves to the stored Event of that
    id. *)
Lemma resolves_of_in (db : DB) (e : EventSchema.doc) :
  wf db -> In e (events db) -> resolves db (EventSchema._id e) = Some e.
Proof.
  intros [_ _ Hue _ _] Hin.
  now apply (find_key_unique EventSchema._id (EventSchema._id e) (events db)).
Qed.

Lemma wf_update (db : DB) (p : EventSchema.doc -> bool) (q : GeofenceSchema.doc -> bool)
    (b : Req.body) (f : GeofenceSchema.doc -> GeofenceSchema.doc) :
  (forall g, GeofenceSchema._id (f g) = GeofenceSchema._id g) ->
  (forall g, GeofenceSchema.event (f g) = GeofenceSchema.event g) ->
  wf db ->
  wf (mkDB (update_first p (Event.applyUpdate b) (events db))
           (update_first q f (geofences db)) (nextId db)).
Proof.
  intros Hid Hev [He Hg Hue Hug Hone]. split; simpl.
  - apply Forall_update_first; auto.
  - apply Forall_update_first; auto. intro g. now rewrite Hid, Hev.
  - now rewrite update_first_map_key.
  - now rewrite update_first_map_key.
  - now rewrite update_first_map_key.
Qed.

Lemma wf_remove (db : DB) (p : EventSchema.doc -> bool)
    (q : GeofenceSchema.doc -> bool) :
  wf db ->
  wf (mkDB (remove_first p (events db)) (remove_first q (geofences db))
           (nextId db)).
Proof.
  intros [He Hg Hue Hug Hone]. split; simpl.
  - now apply Forall_remove_first.
  - now apply Forall_remove_first.
  - now apply NoDup_remove_first.
  - now apply NoDup_remove_first.
  - now apply NoDup_remove_first.
Qed.

Section Preservation.
Context `{P : Persistence}.
Variables (user : Req.user) (db : DB).
Hypothesis Hwf : wf db.

Lemma wf_createEvent (body : Req.body) :
  wf (fst (createEvent user body db)).
Proof.
  destruct (may_create user) eqn:Hc.
  - rewrite (createEvent_allowed _ _ _ Hc).
    destruct (Event.cast _ _) as [e|] eqn:Hcast; [|assumption].
    apply cast_organizer in Hcast as (Hid & _ & _).
    destruct (validEvent e); [|assumption].
    pose proof (wf_add_event db e Hwf Hid) as Hwf1.
    cbv zeta. destruct (validGeofence _); [|assumption].
    apply (wf_add_geofence _ _ Hwf1); simpl; try (rewrite Hid; lia); auto.
    rewrite Hid. unfold paired. simpl. apply (paired_fresh db); [assumption|lia].
  - now rewrite (createEvent_denied _ _ _ Hc).
Qed.

Lemma wf_updateEvent (id : ObjectId) (body : Req.body) :
  wf (fst (updateEvent user id body db)).
Proof.
  destruct (resolves db id) as [e|] eqn:Hr.
  - destruct (may_modify user e) eqn:Hm.
    + rewrite (updateEvent_allowed _ _ _ _ _ Hr Hm). cbv zeta.
      pose proof (wf_update db (Event.byId id) (fun _ => false) body
                    (fun g => g) (fun _ => eq_refl) (fun _ => eq_refl) Hwf)
        as Hkeep.
      replace (update_first (fun _ => false) (fun g => g) (geofences db))
        with (geofences db) in Hkeep
        by (symmetry; apply update_first_none, find_none_forall; auto).
      destruct (validEvent _); [|assumption].
      destruct (Req.coordinates body) as [xy|]; [|assumption].
      destruct (paired db id) as [g|]; [|assumption].
      destruct (validGeofence _); [|assumption].
      apply wf_update; auto.
    + now rewrite (updateEvent_denied _ _ _ _ _ Hr Hm).
  - now rewrite (updateEvent_notfound _ _ _ _ Hr).
Qed.

Lemma wf_deleteEvent (id : ObjectId) :
  wf (fst (deleteEvent user id db)).
Proof.
  destruct (resolves db id) as [e|] eqn:Hr.
  - destruct (may_modify user e) eqn:Hm.
    + rewrite (deleteEvent_allowed _ _ _ _ Hr Hm). now apply wf_remove.
    + now rewrite (deleteEvent_denied _ _ _ _ Hr Hm).
  - now rewrite (deleteEvent_notfound _ _ _ Hr).
Qed.

Lemma wf_handle (r : Request) : wf (fst (handle user r db)).
Proof.
  destruct r; simpl;
    [apply wf_createEvent | apply wf_updateEvent | apply wf_deleteEvent].
Qed.
End Preservation.

(** Every database reached from the empty one through the three handlers is
    well-formed. *)
Lemma wf_run `{P : Persistence} (trace : list (Req.user * Request)) :
  wf (fst (run trace)).
Proof.
  unfold run. generalize wf_empty.
  change emptyDB with (fst (emptyDB, @nil (ObjectId * UserId))) at 1.
  generalize (emptyDB, @nil (ObjectId * UserId)).
  induction trace as [|ur t IH]; simpl; intros s Hs; [assumption|].
  apply IH. unfold step. simpl. now apply wf_handle.
Qed.

(** ** Authorization and existence guards *)

Lemma may_create_false (user : Req.user) :
  Req.role user <> "ngo" -> Req.role user <> "admin" ->
  may_create user = false.
Proof.
  intros H1 H2. unfold may_create.
  apply String.eqb_neq in H1, H2. now rewrite H1, H2.
Qed.

Lemma may_modify_false (user : Req.user) (e : EventSchema.doc) :
  EventSchema.organizer e <> Req.id user -> Req.role user <> "admin" ->
  may_modify user e = false.
Proof.
  intros H1 H2. unfold may_modify.
  apply String.eqb_neq in H1, H2. now rewrite H1, H2.
Qed.

Lemma may_modify_true (user : Req.user) (e : EventSchema.doc) :
  EventSchema.organizer e = Req.id user \/ Req.role user = "admin" ->
  may_modify user e = true.
Proof.
  unfold may_modify. intros [H|H]; apply String.eqb_eq in H; rewrite H;
    [reflexivity | apply orb_true_r].
Qed.

(** C1: a Create request by a caller whose role is neither "ngo" nor "admin"
    fails with a 403 error response, and the database it leaves behind is
    the one it started from: no Event and no Geofence has been persisted. *)
Theorem createEvent_forbidden `{P : Persistence}
    (user : Req.user) (body : Req.body) (db : DB)
    (Hngo : Req.role user <> "ngo") (Hadmin : Req.role user <> "admin") :
  exists message,
    createEvent user body db = (db, Throw (ErrorResponse message 403)).
Proof.
  eexists. apply createEvent_denied. now apply may_create_false.
Qed.

Lemma createEvent_forbidden_witness :
  Req.role bob <> "ngo" /\ Req.role bob <> "admin"
  /\ exists message,
       @createEvent sampleSchemas bob fair one_fair
       = (one_fair, Throw (ErrorResponse message 403)).
Proof.
  split; [|split].
  - simpl. discriminate.
  - simpl. discriminate.
  - apply (@createEvent_forbidden sampleSchemas bob fair one_fair);
      simpl; discriminate.
Defined.

(** C2: when a Create request succeeds, the Event it persisted and returned
    has the caller's id as organizer, whatever [organizer] the request body
    carried. *)
Theorem createEvent_sets_organizer `{P : Persistence}
    (user : Req.user) (body : Req.body) (db db' : DB) (r : Response)
    (Hok : createEvent user body db = (db', Ok r)) :
  exists e,
    r = mkResponse 201 true None (DataEvent e)
    /\ events db' = (events db ++ [e])%list
    /\ EventSchema.organizer e = Req.id user.
Proof.
  destruct (may_create user) eqn:Hc.
  - rewrite (createEvent_allowed _ _ _ Hc) in Hok.
    destruct (Event.cast _ _) as [e|] eqn:Hcast; [|discriminate].
    apply cast_organizer in Hcast as (_ & Horg & _).
    destruct (validEvent e); [|discriminate].
    cbv zeta in Hok. destruct (validGeofence _); [|discriminate].
    injection Hok as <- <-. exists e. auto.
  - rewrite (createEvent_denied _ _ _ Hc) in Hok. discriminate.
Qed.

Lemma createEvent_sets_organizer_witness :
  Req.organizer fair = Some "mallory"
  /\ exists db' r e,
       @createEvent sampleSchemas alice fair emptyDB = (db', Ok r)
       /\ r = mkResponse 201 true None (DataEvent e)
       /\ events db' = [e]
       /\ EventSchema.organizer e = "alice".
Proof.
  split; [reflexivity|].
  assert (exists db' r,
             @createEvent sampleSchemas alice fair emptyDB = (db', Ok r))
    as (db' & r & E) by (vm_compute; eauto).
  destruct (@createEvent_sets_organizer sampleSchemas alice fair emptyDB db' r E)
    as (e & Hr & He & Ho).
  exists db', r, e. auto.
Defined.

(** C6: Update and Delete first look the Event up.  When the id resolves to
    no Event they fail with 404 whoever the caller is, so before any
    authorization check; when it resolves to an Event whose organizer is not
    the caller, and the caller is no admin, they fail with 403.  In both
    cases the database is left as it was. *)
Theorem update_delete_guards `{P : Persistence}
    (user : Req.user) (id : ObjectId) (body : Req.body) (db : DB) :
  ((forall e, In e (events db) -> EventSchema._id e <> id) ->
   (exists m, updateEvent user id body db = (db, Throw (ErrorResponse m 404)))
   /\ (exists m, deleteEvent user id db = (db, Throw (ErrorResponse m 404))))
  /\
  (forall e,
      resolves db id = Some e ->
      EventSchema.organizer e <> Req.id user -> Req.role user <> "admin" ->
      (exists m, updateEvent user id body db = (db, Throw (ErrorResponse m 403)))
      /\ (exists m, deleteEvent user id db = (db, Throw (ErrorResponse m 403)))).
Proof.
  split.
  - intro Hnone. apply resolves_none in Hnone. split; eexists.
    + now apply updateEvent_notfound.
    + now apply deleteEvent_notfound.
  - intros e Hr Horg Hrole.
    pose proof (may_modify_false _ _ Horg Hrole) as Hm. split; eexists.
    + now apply updateEvent_denied with e.
    + now apply deleteEvent_denied with e.
Qed.

Lemma update_delete_guards_witness :
  (* an unknown id, asked for by a caller who could not modify anything *)
  ((exists m, @updateEvent sampleSchemas bob 7%N hand_over one_fair
              = (one_fair, Throw (ErrorResponse m 404)))
   /\ (exists m, deleteEvent bob 7%N one_fair
                 = (one_fair, Throw (ErrorResponse m 404))))
  /\
  (* alice's Event, asked for by bob *)
  ((exists m, @updateEvent sampleSchemas bob 0%N hand_over one_fair
              = (one_fair, Throw (ErrorResponse m 403)))
   /\ (exists m, deleteEvent bob 0%N one_fair
                 = (one_fair, Throw (ErrorResponse m 403)))).
Proof.
  split.
  - apply (@update_delete_guards sampleSchemas bob 7%N hand_over one_fair).
    intros e [<-|[]]. vm_compute. discriminate.
  - refine (proj2 (@update_delete_guards sampleSchemas bob 0%N hand_over one_fair)
              _ eq_refl _ _); vm_compute; discriminate.
Defined.

(** ** Delete *)

(** C7: an authorized Delete of an existing Event runs the Geofence deletion
    and then the Event deletion, and answers 200 with an empty payload.  The
    Event is taken out of its collection, and so is its paired Geofence;
    when there is no paired Geofence the Geofence collection is untouched
    and the answer is the same.  On a well-formed database the id then
    resolves to no Event and no Geofence references it. *)
Theorem deleteEvent_removes_pair
    (user : Req.user) (id : ObjectId) (db : DB) (e : EventSchema.doc)
    (Hfound : resolves db id = Some e)
    (Hauth : EventSchema.organizer e = Req.id user \/ Req.role user = "admin") :
  exists db1 db2,
    Geofence.findOneAndDelete id db = (db1, Ok (paired db id))
    /\ Event.deleteOne e db1 = (db2, Ok tt)
    /\ deleteEvent user id db = (db2, Ok (mkResponse 200 true None DataEmpty))
    /\ events db1 = events db
    /\ geofences db2 = geofences db1
    /\ (exists l1 l2, events db = (l1 ++ e :: l2)%list
                      /\ events db2 = (l1 ++ l2)%list)
    /\ match paired db id with
       | Some g => exists l1 l2, geofences db = (l1 ++ g :: l2)%list
                                /\ geofences db2 = (l1 ++ l2)%list
       | None => geofences db2 = geofences db
       end
    /\ (wf db -> resolves db2 id = None /\ paired db2 id = None).
Proof.
  pose proof (resolves_some _ _ _ Hfound) as [_ Hid].
  exists (mkDB (events db) (remove_first (Geofence.byEvent id) (geofences db))
               (nextId db)).
  exists (mkDB (remove_first (Event.byId id) (events db))
               (remove_first (Geofence.byEvent id) (geofences db))
               (nextId db)).
  split; [reflexivity|].
  split; [unfold Event.deleteOne; simpl; now rewrite Hid|].
  split; [apply deleteEvent_allowed with e;
          [assumption | now apply may_modify_true]|].
  split; [reflexivity|]. split; [reflexivity|]. simpl.
  split; [now apply remove_first_split|].
  split.
  - destruct (paired db id) as [g|] eqn:Hp.
    + now apply remove_first_split.
    + now apply remove_first_none.
  - intros [_ _ Hue _ Hone]. split.
    + apply resolves_none. simpl. intros e' H.
      now apply (remove_first_key_gone EventSchema._id id (events db)).
    + apply paired_none. simpl. intros g H.
      now apply (remove_first_key_gone GeofenceSchema.event id (geofences db)).
Qed.

Lemma deleteEvent_removes_pair_witness :
  (* alice deletes her Event, which has a Geofence *)
  (exists g e db2,
      paired one_fair 0%N = Some g
      /\ resolves one_fair 0%N = Some e
      /\ deleteEvent alice 0%N one_fair
         = (db2, Ok (mkResponse 200 true None DataEmpty))
      /\ resolves db2 0%N = None
      /\ paired db2 0%N = None)
  /\
  (* an admin deletes alice's Event, which has no Geofence *)
  (exists e db2,
      paired lone_fair 0%N = None
      /\ resolves lone_fair 0%N = Some e
      /\ deleteEvent root 0%N lone_fair
         = (db2, Ok (mkResponse 200 true None DataEmpty))
      /\ resolves db2 0%N = None
      /\ geofences db2 = geofences lone_fair).
Proof.
  split.
  - assert (Hwf : wf one_fair)
      by apply (@wf_createEvent sampleSchemas), wf_empty.
    assert (exists e, resolves one_fair 0%N = Some e) as (e & He)
      by (vm_compute; eauto).
    assert (exists g, paired one_fair 0%N = Some g) as (g & Hg)
      by (vm_compute; eauto).
    assert (Ha : EventSchema.organizer e = Req.id alice
                 \/ Req.role alice = "admin").
    { left. vm_compute in He. injection He as <-. reflexivity. }
    destruct (deleteEvent_removes_pair alice 0%N one_fair e He Ha)
      as (db1 & db2 & _ & _ & Hdel & _ & _ & _ & _ & Hgone).
    destruct (Hgone Hwf) as [Hr Hp].
    exists g, e, db2. auto.
  - assert (Hwf : wf lone_fair)
      by apply (@wf_createEvent sampleSchemas), wf_empty.
    assert (exists e, resolves lone_fair 0%N = Some e) as (e & He)
      by (vm_compute; eauto).
    assert (Ha : EventSchema.organizer e = Req.id root
                 \/ Req.role root = "admin") by (right; reflexivity).
    destruct (deleteEvent_removes_pair root 0%N lone_fair e He Ha)
      as (db1 & db2 & _ & _ & Hdel & _ & _ & _ & Hsame & Hgone).
    destruct (Hgone Hwf) as [Hr _].
    exists e, db2. repeat split; auto.
Defined.

(** ** Upcoming events *)

Lemma date_asc_total (a b : EventSchema.doc) :
  date_asc a b = false -> date_asc b a = true.
Proof. unfold date_asc. rewrite Z.leb_gt, Z.leb_le. lia. Qed.

Lemma date_asc_trans (a b c : EventSchema.doc) :
  date_asc a b = true -> date_asc b c = true -> date_asc a c = true.
Proof. unfold date_asc. rewrite !Z.leb_le. lia. Qed.

Lemma StronglySorted_map {A B : Type} (R : A -> A -> Prop) (S : B -> B -> Prop)
    (f : A -> B) (l : list A) :
  (forall a b, R a b -> S (f a) (f b)) ->
  StronglySorted R l -> StronglySorted S (map f l).
Proof.
  intros HRS H. induction H as [|x t Ht IH Hx]; simpl; constructor.
  - assumption.
  - rewrite Forall_forall in *. intros y Hy.
    apply in_map_iff in Hy as (z & <- & Hz). auto.
Qed.

Example upcoming_calendar :
  dates_of (@getUpcomingEvents sampleSchemas 150 calendar) = [200; 300]%Z.
Proof. reflexivity. Qed.

Example upcoming_crowded :
  dates_of (@getUpcomingEvents sampleSchemas 0 crowded)
  = [989; 990; 991; 992; 993; 994; 995; 996; 997; 998]%Z.
Proof. reflexivity. Qed.

(** C9: the upcoming-events query answers with at most 10 Events, each of
    them stored, dated at or after the time of the query and of status
    "upcoming", in ascending order of date. *)
Theorem getUpcomingEvents_spec `{P : Persistence} (now : Z) (db : DB) :
  exists l,
    getUpcomingEvents now db
    = (db, Ok (mkResponse 200 true (Some (List.length l)) (DataPopulatedList l)))
    /\ (List.length l <= 10)%nat
    /\ Forall (fun p => In (base p) (events db)
                        /\ (now <= EventSchema.date (base p))%Z
                        /\ EventSchema.status (base p) = "upcoming") l
    /\ StronglySorted
         (fun p q => (EventSchema.date (base p) <= EventSchema.date (base q))%Z) l.
Proof.
  set (q := fun e => (now <=? EventSchema.date e)%Z
                     && (EventSchema.status e =? "upcoming")).
  set (found := firstn 10 (sort_by date_asc (filter q (events db)))).
  exists (map (Event.populate ["name"]) found).
  split; [reflexivity|]. split; [|split].
  - rewrite length_map. apply firstn_le_length.
  - rewrite Forall_forall. intros p Hp.
    apply in_map_iff in Hp as (e & <- & He). simpl.
    apply in_firstn in He.
    apply (Permutation_in _ (sort_by_perm date_asc _)) in He.
    apply filter_In in He as [Hin Hq]. unfold q in Hq.
    apply andb_prop in Hq as [Hd Hs].
    apply Z.leb_le in Hd. apply String.eqb_eq in Hs. auto.
  - apply StronglySorted_map
      with (R := fun a b => date_asc a b = true).
    + intros a b. unfold date_asc. simpl. apply Z.leb_le.
    + apply StronglySorted_firstn, sort_by_sorted.
      * apply date_asc_total.
      * apply date_asc_trans.
Qed.

(** ** What a successful Create or Update has done *)

Lemma createEvent_ok `{P : Persistence}
    (user : Req.user) (body : Req.body) (db db' : DB) (r : Response) :
  createEvent user body db = (db', Ok r) ->
  exists e g,
    r = mkResponse 201 true None (DataEvent e)
    /\ db' = mkDB (events db ++ [e]) (geofences db ++ [g])
                  (N.succ (N.succ (nextId db)))
    /\ EventSchema._id e = nextId db
    /\ EventSchema.organizer e = Req.id user
    /\ g = GeofenceSchema.mk
             (N.succ (nextId db)) (EventSchema._id e)
             (js_or (Req.geofenceRadius body) (JNum 500))
             (EventSchema.coordinates e)
             (GeofenceSchema.mkImpact
                (js_or (Req.trafficImpact body) (JStr "low"))
                (Some ("Traffic impact for " ++ EventSchema.title e)))
             (Req.id user).
Proof.
  intro Hok. destruct (may_create user) eqn:Hc.
  - rewrite (createEvent_allowed _ _ _ Hc) in Hok.
    destruct (Event.cast _ _) as [e|] eqn:Hcast; [|discriminate].
    apply cast_organizer in Hcast as (Hid & Horg & _).
    destruct (validEvent e); [|discriminate].
    cbv zeta in Hok. destruct (validGeofence _); [|discriminate].
    injection Hok as <- <-. do 2 eexists. repeat split; auto.
  - rewrite (createEvent_denied _ _ _ Hc) in Hok. discriminate.
Qed.

Lemma updateEvent_ok `{P : Persistence}
    (user : Req.user) (id : ObjectId) (body : Req.body) (db db' : DB)
    (r : Response) :
  updateEvent user id body db = (db', Ok r) ->
  exists e,
    resolves db id = Some e
    /\ may_modify user e = true
    /\ r = mkResponse 200 true None (DataEvent (Event.applyUpdate body e))
    /\ events db'
       = update_first (Event.byId id) (Event.applyUpdate body) (events db)
    /\ geofences db'
       = match Req.coordinates body, paired db id with
         | Some xy, Some _ =>
             update_first (Geofence.byEvent id)
               (Geofence.applyUpdate xy
                  (js_or (Req.geofenceRadius body) (JNum 500))
                  (GeofenceSchema.mkImpact
                     (js_or (Req.trafficImpact body) (JStr "low")) None))
               (geofences db)
         | _, _ => geofences db
         end.
Proof.
  intro Hok. destruct (resolves db id) as [e|] eqn:Hr.
  - destruct (may_modify user e) eqn:Hm.
    + rewrite (updateEvent_allowed _ _ _ _ _ Hr Hm) in Hok. cbv zeta in Hok.
      exists e.
      destruct (validEvent _); [|discriminate].
      destruct (Req.coordinates body) as [xy|].
      * destruct (paired db id) as [g|].
        -- destruct (validGeofence _); [|discriminate].
           injection Hok as <- <-. auto.
        -- injection Hok as <- <-. auto.
      * injection Hok as <- <-. auto.
    + rewrite (updateEvent_denied _ _ _ _ _ Hr Hm) in Hok. discriminate.
  - rewrite (updateEvent_notfound _ _ _ _ Hr) in Hok. discriminate.
Qed.

Lemma filter_nil {A : Type} (p : A -> bool) (l : list A) :
  (forall x, In x l -> p x = false) -> filter p l = [].
Proof.
  induction l as [|x t IH]; simpl; [reflexivity|].
  intro H. rewrite (H x (or_introl eq_refl)). apply IH. auto.
Qed.

Lemma js_or_falsy (v d : jsval) : truthy v = false -> js_or v d = d.
Proof. unfold js_or. now intros ->. Qed.

Lemma falsy_not_default (v d : jsval) :
  truthy v = false -> truthy d = true -> d <> v.
Proof. intros Hv Hd ->. congruence. Qed.

Lemma float_500_not_0 : JNum 500 <> JNum 0.
Proof.
  intro H.
  apply (f_equal (fun v => match v with
                           | JNum f => PrimFloat.is_zero f
                           | _ => false
                           end)) in H.
  vm_compute in H. discriminate.
Qed.

(** ** The Geofence of a created Event *)

(** C4, as worded, fails: alice creates an Event with [geofenceRadius: 0]
    and [trafficImpact: ""], both supplied; the Geofence gets radius 500,
    not 0. *)
Lemma create_as_claimed_fails :
  ~ @create_as_claimed sampleSchemas alice fair_zero emptyDB.
Proof.
  intro H.
  assert (exists db' r g,
             @createEvent sampleSchemas alice fair_zero emptyDB = (db', Ok r)
             /\ geofences db' = [g]
             /\ GeofenceSchema.radius g = JNum 500)
    as (db' & r & g & E & Hg & Hrad)
    by (vm_compute; do 3 eexists; repeat split).
  destruct (H db' r E) as (e & g' & _ & Hf & _ & Hr' & _).
  rewrite Hg in Hf. simpl in Hf.
  destruct (Geofence.byEvent _ g); [|discriminate].
  injection Hf as <-.
  rewrite Hrad in Hr'. now apply float_500_not_0.
Qed.

(** C4, amended: after a successful Create on a well-formed database exactly
    one Geofence references the new Event; its center is the Event's
    coordinates, its radius is the request's [geofenceRadius] when that is
    truthy and 500 otherwise, and its trafficImpact level is the request's
    [trafficImpact] when that is truthy and "low" otherwise. *)
Theorem createEvent_pairs_geofence `{P : Persistence}
    (user : Req.user) (body : Req.body) (db db' : DB) (r : Response)
    (Hwf : wf db)
    (Hok : createEvent user body db = (db', Ok r)) :
  exists e g,
    r = mkResponse 201 true None (DataEvent e)
    /\ events db' = (events db ++ [e])%list
    /\ geofences db' = (geofences db ++ [g])%list
    /\ filter (Geofence.byEvent (EventSchema._id e)) (geofences db') = [g]
    /\ GeofenceSchema.event g = EventSchema._id e
    /\ GeofenceSchema.center g = EventSchema.coordinates e
    /\ GeofenceSchema.radius g
       = (if truthy (Req.geofenceRadius body)
          then Req.geofenceRadius body else JNum 500)
    /\ GeofenceSchema.level (GeofenceSchema.trafficImpact g)
       = (if truthy (Req.trafficImpact body)
          then Req.trafficImpact body else JStr "low").
Proof.
  destruct (createEvent_ok _ _ _ _ _ Hok) as (e & g & -> & -> & Hid & _ & Hg).
  exists e, g. subst g. simpl. repeat split.
  rewrite filter_app. simpl.
  unfold Geofence.byEvent at 2. simpl. rewrite N.eqb_refl.
  rewrite filter_nil; [reflexivity|].
  apply find_none_forall. apply (paired_fresh db); [assumption|lia].
Qed.

Lemma createEvent_pairs_geofence_witness :
  wf one_fair
  /\ exists db' r e g,
       @createEvent sampleSchemas alice fair_300 one_fair = (db', Ok r)
       /\ filter (Geofence.byEvent (EventSchema._id e)) (geofences db') = [g]
       /\ GeofenceSchema.center g = philadelphia
       /\ GeofenceSchema.radius g = JNum 300
       /\ GeofenceSchema.level (GeofenceSchema.trafficImpact g) = JStr "high".
Proof.
  assert (Hwf : wf one_fair) by apply (@wf_createEvent sampleSchemas), wf_empty.
  split; [exact Hwf|].
  assert (exists db' r,
             @createEvent sampleSchemas alice fair_300 one_fair = (db', Ok r))
    as (db' & r & E) by (vm_compute; eauto).
  destruct (@createEvent_pairs_geofence
              sampleSchemas alice fair_300 one_fair db' r Hwf E)
    as (e & g & Hr & He & _ & Hf & _ & Hc & Hrad & Hl).
  exists db', r, e, g. repeat split; try assumption.
  rewrite Hc.
  pose proof E as E'. vm_compute in E'.
  injection E' as Hdb _. rewrite <- Hdb in He. simpl in He.
  injection He as <-. reflexivity.
Defined.

(** ** The Geofence of an updated Event *)

Lemma paired_after_update (db : DB) (id : ObjectId)
    (f : GeofenceSchema.doc -> GeofenceSchema.doc) (g : GeofenceSchema.doc) :
  (forall x, GeofenceSchema.event (f x) = GeofenceSchema.event x) ->
  paired db id = Some g ->
  find (Geofence.byEvent id) (update_first (Geofence.byEvent id) f (geofences db))
  = Some (f g).
Proof.
  intros Hf Hp. apply find_update_first; [exact Hp|].
  apply byEvent_true. rewrite Hf. now apply paired_some in Hp.
Qed.

(** C5, as worded, fails: alice moves her Event with [geofenceRadius: 0] and
    [trafficImpact: ""], both supplied; the paired Geofence, of radius 300,
    gets radius 500, not 0. *)
Lemma update_as_claimed_fails :
  ~ @update_as_claimed sampleSchemas alice 0%N move_zero one_fair.
Proof.
  intro H.
  assert (exists db' r g,
             @updateEvent sampleSchemas alice 0%N move_zero one_fair = (db', Ok r)
             /\ paired db' 0%N = Some g
             /\ GeofenceSchema.radius g = JNum 500)
    as (db' & r & g & E & Hg & Hrad)
    by (vm_compute; do 3 eexists; repeat split).
  specialize (H pune db' r eq_refl E).
  change (paired one_fair 0%N) with
    (Some (GeofenceSchema.mk 1%N 0%N (JNum 300) philadelphia
             (GeofenceSchema.mkImpact (JStr "high")
                (Some "Traffic impact for Street fair")) "alice")) in H.
  destruct H as (g' & Hg' & _ & Hr' & _).
  rewrite Hg in Hg'. injection Hg' as <-.
  rewrite Hrad in Hr'. now apply float_500_not_0.
Qed.

(** C5, amended: after a successful Update whose body carries coordinates,
    the paired Geofence, if there is one, has the new coordinates as center,
    the request's [geofenceRadius] as radius when that is truthy and 500
    otherwise (whatever the radius was), and the request's [trafficImpact]
    as level when that is truthy and "low" otherwise; the other Geofences
    are untouched.  If the Event has no paired Geofence, an authorized Update
    that validates succeeds all the same and leaves the Geofences as they
    were. *)
Theorem updateEvent_tracks_geofence `{P : Persistence}
    (user : Req.user) (id : ObjectId) (body : Req.body) (xy : Coordinates)
    (db : DB)
    (Hxy : Req.coordinates body = Some xy) :
  (forall db' r,
      updateEvent user id body db = (db', Ok r) ->
      status r = 200%Z
      /\ match paired db id with
         | Some g =>
             exists g',
               paired db' id = Some g'
               /\ GeofenceSchema._id g' = GeofenceSchema._id g
               /\ GeofenceSchema.center g' = xy
               /\ GeofenceSchema.radius g'
                  = (if truthy (Req.geofenceRadius body)
                     then Req.geofenceRadius body else JNum 500)
               /\ GeofenceSchema.level (GeofenceSchema.trafficImpact g')
                  = (if truthy (Req.trafficImpact body)
                     then Req.trafficImpact body else JStr "low")
               /\ (forall x, In x (geofences db) ->
                             GeofenceSchema.event x <> id ->
                             In x (geofences db'))
         | None => geofences db' = geofences db
         end)
  /\ (forall e,
         resolves db id = Some e ->
         EventSchema.organizer e = Req.id user \/ Req.role user = "admin" ->
         validEvent (Event.applyUpdate body e) = true ->
         paired db id = None ->
         exists db',
           updateEvent user id body db
           = (db', Ok (mkResponse 200 true None
                         (DataEvent (Event.applyUpdate body e))))
           /\ geofences db' = geofences db).
Proof.
  split.
  - intros db' r Hok.
    destruct (updateEvent_ok _ _ _ _ _ _ Hok) as (e & _ & _ & -> & _ & Hg).
    split; [reflexivity|].
    rewrite Hxy in Hg. destruct (paired db id) as [g|] eqn:Hp; [|exact Hg].
    eexists. unfold paired at 1. rewrite Hg.
    split; [apply paired_after_update; [reflexivity | exact Hp]|].
    simpl. repeat split.
    intros x Hin Hne. apply update_first_other; [assumption|].
    apply N.eqb_neq, Hne.
  - intros e Hr Hauth Hvalid Hnone.
    rewrite (updateEvent_allowed _ _ _ _ _ Hr (may_modify_true _ _ Hauth)).
    cbv zeta. rewrite Hvalid, Hxy, Hnone. eexists. split; reflexivity.
Qed.

Lemma updateEvent_tracks_geofence_witness :
  (* a paired Geofence of radius 300, and an Update that omits the radius *)
  (exists db' r g',
      @updateEvent sampleSchemas alice 0%N move one_fair = (db', Ok r)
      /\ paired db' 0%N = Some g'
      /\ GeofenceSchema.center g' = pune
      /\ GeofenceSchema.radius g' = JNum 500
      /\ GeofenceSchema.level (GeofenceSchema.trafficImpact g') = JStr "low")
  /\
  (* no paired Geofence *)
  (paired lone_fair 0%N = None
   /\ exists db' r,
        @updateEvent sampleSchemas alice 0%N move lone_fair = (db', Ok r)
        /\ geofences db' = geofences lone_fair).
Proof.
  pose proof (@updateEvent_tracks_geofence
                sampleSchemas alice 0%N move pune one_fair eq_refl) as [H1 _].
  pose proof (@updateEvent_tracks_geofence
                sampleSchemas alice 0%N move pune lone_fair eq_refl) as [_ H2].
  split.
  - assert (exists db' r,
               @updateEvent sampleSchemas alice 0%N move one_fair = (db', Ok r))
      as (db' & r & E) by (vm_compute; eauto).
    destruct (H1 db' r E) as [_ H]. revert H.
    change (paired one_fair 0%N) with
      (Some (GeofenceSchema.mk 1%N 0%N (JNum 300) philadelphia
               (GeofenceSchema.mkImpact (JStr "high")
                  (Some "Traffic impact for Street fair")) "alice")).
    intros (g' & Hp & _ & Hc & Hrad & Hl & _).
    exists db', r, g'. auto.
  - split; [reflexivity|].
    assert (exists e, resolves lone_fair 0%N = Some e) as (e & He)
      by (vm_compute; eauto).
    assert (Ha : EventSchema.organizer e = Req.id alice \/ Req.role alice = "admin").
    { left. vm_compute in He. injection He as <-. reflexivity. }
    destruct (H2 e He Ha eq_refl eq_refl) as (db' & E & Hg).
    exists db'. eexists. split; [exact E | exact Hg].
Defined.

(** ** Falsy inputs *)

(** C10: a [geofenceRadius] that is falsy, supplied or not, yields radius
    500, and a falsy [trafficImpact] yields level "low", both in the
    Geofence made by a successful Create and in the paired Geofence after a
    successful Update that carries coordinates. *)
Theorem falsy_inputs_default `{P : Persistence}
    (user : Req.user) (body : Req.body) (db db' : DB) (r : Response) :
  (createEvent user body db = (db', Ok r) ->
   exists g,
     geofences db' = (geofences db ++ [g])%list
     /\ (truthy (Req.geofenceRadius body) = false ->
         GeofenceSchema.radius g = JNum 500
         /\ GeofenceSchema.radius g <> Req.geofenceRadius body)
     /\ (truthy (Req.trafficImpact body) = false ->
         GeofenceSchema.level (GeofenceSchema.trafficImpact g) = JStr "low"
         /\ GeofenceSchema.level (GeofenceSchema.trafficImpact g)
            <> Req.trafficImpact body))
  /\
  (forall id xy g,
      Req.coordinates body = Some xy ->
      paired db id = Some g ->
      updateEvent user id body db = (db', Ok r) ->
      exists g',
        paired db' id = Some g'
        /\ (truthy (Req.geofenceRadius body) = false ->
            GeofenceSchema.radius g' = JNum 500
            /\ GeofenceSchema.radius g' <> Req.geofenceRadius body)
        /\ (truthy (Req.trafficImpact body) = false ->
            GeofenceSchema.level (GeofenceSchema.trafficImpact g') = JStr "low"
            /\ GeofenceSchema.level (GeofenceSchema.trafficImpact g')
               <> Req.trafficImpact body)).
Proof.
  split.
  - intro Hok.
    destruct (createEvent_ok _ _ _ _ _ Hok) as (e & g & _ & -> & _ & _ & ->).
    eexists. simpl. split; [reflexivity|].
    split; intro H; rewrite (js_or_falsy _ _ H);
      (split; [reflexivity | now apply falsy_not_default]).
  - intros id xy g Hxy Hp Hok.
    destruct (updateEvent_ok _ _ _ _ _ _ Hok) as (e & _ & _ & _ & _ & Hg).
    rewrite Hxy, Hp in Hg.
    eexists. unfold paired at 1. rewrite Hg.
    split; [apply paired_after_update; [reflexivity | exact Hp]|].
    simpl. split; intro H; rewrite (js_or_falsy _ _ H);
      (split; [reflexivity | now apply falsy_not_default]).
Qed.

Lemma falsy_inputs_default_witness :
  Req.geofenceRadius fair_zero = JNum 0
  /\ Req.trafficImpact fair_zero = JStr ""
  /\ (exists db' r g,
         @createEvent sampleSchemas alice fair_zero emptyDB = (db', Ok r)
         /\ geofences db' = [g]
         /\ GeofenceSchema.radius g = JNum 500
         /\ GeofenceSchema.level (GeofenceSchema.trafficImpact g) = JStr "low")
  /\ (exists db' r g',
         @updateEvent sampleSchemas alice 0%N move_zero one_fair = (db', Ok r)
         /\ paired db' 0%N = Some g'
         /\ GeofenceSchema.radius g' = JNum 500
         /\ GeofenceSchema.level (GeofenceSchema.trafficImpact g') = JStr "low").
Proof.
  split; [reflexivity|]. split; [reflexivity|]. split.
  - assert (exists db' r,
               @createEvent sampleSchemas alice fair_zero emptyDB = (db', Ok r))
      as (db' & r & E) by (vm_compute; eauto).
    destruct (proj1 (@falsy_inputs_default
                       sampleSchemas alice fair_zero emptyDB db' r) E)
      as (g & Hg & Hrad & Hl).
    exists db', r, g.
    repeat split; [exact E | exact Hg | apply Hrad | apply Hl]; reflexivity.
  - assert (exists db' r,
               @updateEvent sampleSchemas alice 0%N move_zero one_fair
               = (db', Ok r))
      as (db' & r & E) by (vm_compute; eauto).
    assert (exists g, paired one_fair 0%N = Some g) as (g & Hp)
      by (vm_compute; eauto).
    destruct (proj2 (@falsy_inputs_default
                       sampleSchemas alice move_zero one_fair db' r)
                0%N pune g eq_refl Hp E)
      as (g' & Hg' & Hrad & Hl).
    exists db', r, g'.
    repeat split; [exact E | exact Hg' | apply Hrad | apply Hl]; reflexivity.
Defined.

(** ** The organizer along a history *)

Lemma creator_of_app_l (log more : creators) (i : ObjectId) (u : UserId) :
  creator_of log i = Some u -> creator_of (log ++ more)%list i = Some u.
Proof.
  unfold creator_of. induction log as [|p t IH]; simpl; [discriminate|].
  destruct (N.eqb _ i); [auto | exact IH].
Qed.

Lemma creator_of_app_r (log more : creators) (i : ObjectId) :
  Forall (fun p => fst p <> i) log ->
  creator_of (log ++ more)%list i = creator_of more i.
Proof.
  unfold creator_of. induction 1 as [|p t Hp Ht IH]; simpl; [reflexivity|].
  destruct (N.eqb _ i) eqn:E; [|exact IH].
  apply N.eqb_eq in E. contradiction.
Qed.

Lemma created_none (before : DB) (evs : list EventSchema.doc) :
  (forall e', In e' evs ->
              exists e, In e (events before)
                        /\ EventSchema._id e = EventSchema._id e') ->
  filter (fun e => negb (existsb (Event.byId (EventSchema._id e)) (events before)))
         evs = [].
Proof.
  intro H. apply filter_nil. intros e' Hin.
  destruct (H e' Hin) as (e & He & Hid).
  apply negb_false_iff, existsb_exists. exists e.
  split; [assumption | now apply byId_true].
Qed.

Lemma created_one (before : DB) (e : EventSchema.doc) :
  wf before -> EventSchema._id e = nextId before ->
  filter (fun x => negb (existsb (Event.byId (EventSchema._id x)) (events before)))
         (events before ++ [e])%list = [e].
Proof.
  intros Hwf Hid. rewrite filter_app.
  rewrite created_none by (intros e' H; exists e'; auto).
  simpl.
  replace (existsb (Event.byId (EventSchema._id e)) (events before)) with false;
    [reflexivity|].
  symmetry. apply not_true_is_false. intro H.
  apply existsb_exists in H as (x & Hx & Hb). apply byId_true in Hb.
  destruct Hwf as [He _ _ _ _]. rewrite Forall_forall in He.
  specialize (He x Hx). simpl in He. lia.
Qed.

(** What a request does to the Event collection: either every Event is an
    older one with the same id and organizer, or one Event was added, with
    a new id and the caller as organizer. *)
Lemma handle_events `{P : Persistence}
    (user : Req.user) (r : Request) (db : DB) :
  wf db -> keeps_organizer r = true ->
  (nextId db <= nextId (fst (handle user r db)))%N
  /\ ((forall e', In e' (events (fst (handle user r db))) ->
                  exists e, In e (events db)
                            /\ EventSchema._id e = EventSchema._id e'
                            /\ EventSchema.organizer e = EventSchema.organizer e')
      \/ (exists e, events (fst (handle user r db)) = (events db ++ [e])%list
                    /\ EventSchema._id e = nextId db
                    /\ EventSchema.organizer e = Req.id user
                    /\ (nextId db < nextId (fst (handle user r db)))%N)).
Proof.
  intros Hwf Hkeep.
  assert (Hsame : forall e', In e' (events db) ->
                  exists e, In e (events db)
                            /\ EventSchema._id e = EventSchema._id e'
                            /\ EventSchema.organizer e = EventSchema.organizer e')
    by (intros e' H; exists e'; auto).
  destruct r as [body|id body|id]; simpl in *.
  - (* Create *)
    destruct (may_create user) eqn:Hc.
    + rewrite (createEvent_allowed _ _ _ Hc).
      destruct (Event.cast _ _) as [e|] eqn:Hcast;
        [|split; [reflexivity | left; exact Hsame]].
      apply cast_organizer in Hcast as (Hid & Horg & _).
      destruct (validEvent e); [|split; [reflexivity | left; exact Hsame]].
      cbv zeta. destruct (validGeofence _); simpl;
        (split; [lia | right; exists e; repeat split; auto; lia]).
    + rewrite (createEvent_denied _ _ _ Hc).
      split; [reflexivity | left; exact Hsame].
  - (* Update *)
    destruct (Req.organizer body) eqn:Horg; [discriminate|].
    destruct (resolves db id) as [e|] eqn:Hr.
    + destruct (may_modify user e) eqn:Hm.
      * rewrite (updateEvent_allowed _ _ _ _ _ Hr Hm). cbv zeta.
        assert (Hupd : forall e',
                   In e' (update_first (Event.byId id) (Event.applyUpdate body)
                            (events db)) ->
                   exists x, In x (events db)
                             /\ EventSchema._id x = EventSchema._id e'
                             /\ EventSchema.organizer x = EventSchema.organizer e').
        { intros e' H. apply in_update_first in H as [H|(x & Hx & _ & ->)].
          - now apply Hsame.
          - exists x. unfold Event.applyUpdate. simpl. rewrite Horg. auto. }
        destruct (validEvent _); [|split; [reflexivity | left; exact Hsame]].
        destruct (Req.coordinates body) as [xy|];
          [|split; [reflexivity | left; exact Hupd]].
        destruct (paired db id) as [g|];
          [|split; [reflexivity | left; exact Hupd]].
        destruct (validGeofence _); split; try reflexivity; left; exact Hupd.
      * rewrite (updateEvent_denied _ _ _ _ _ Hr Hm).
        split; [reflexivity | left; exact Hsame].
    + rewrite (updateEvent_notfound _ _ _ _ Hr).
      split; [reflexivity | left; exact Hsame].
  - (* Delete *)
    destruct (resolves db id) as [e|] eqn:Hr.
    + destruct (may_modify user e) eqn:Hm.
      * rewrite (deleteEvent_allowed _ _ _ _ Hr Hm). simpl.
        split; [reflexivity|]. left. intros e' H.
        apply in_remove_first in H. now apply Hsame.
      * rewrite (deleteEvent_denied _ _ _ _ Hr Hm).
        split; [reflexivity | left; exact Hsame].
    + rewrite (deleteEvent_notfound _ _ _ Hr).
      split; [reflexivity | left; exact Hsame].
Qed.

Lemma step_history_ok `{P : Persistence}
    (s : DB * creators) (ur : Req.user * Request) :
  history_ok s -> keeps_organizer (snd ur) = true -> history_ok (step s ur).
Proof.
  destruct s as [db log], ur as [user r]. unfold history_ok, step. simpl.
  intros (Hwf & Hinv & Hlog) Hkeep.
  destruct (handle_events user r db Hwf Hkeep) as [Hnext Hev].
  split; [now apply wf_handle|].
  unfold created.
  destruct Hev as [Hold|(e & Hnew & Hid & Horg & Hlt)].
  - rewrite created_none
      by (intros e' H; destruct (Hold e' H) as (x & ? & ? & _); eauto).
    simpl. rewrite app_nil_r. split.
    + intros e' H. simpl in *. destruct (Hold e' H) as (x & Hx & <- & <-).
      now apply Hinv.
    + eapply Forall_impl; [|exact Hlog]. simpl. intros; lia.
  - rewrite Hnew, (created_one db e Hwf Hid). simpl. split.
    + intros e' H. simpl in *. rewrite Hnew in H.
      apply in_app_or in H as [H|[<-|[]]].
      * apply creator_of_app_l. now apply Hinv.
      * rewrite creator_of_app_r.
        -- unfold creator_of. simpl. rewrite N.eqb_refl. simpl. now rewrite Horg.
        -- eapply Forall_impl; [|exact Hlog]. simpl.
           intros a Ha Heq. apply (N.lt_irrefl (nextId db)).
           rewrite <- Hid at 1. rewrite <- Heq. exact Ha.
    + apply Forall_app. split.
      * eapply Forall_impl; [|exact Hlog]. simpl. intros; lia.
      * repeat constructor. simpl. now rewrite Hid.
Qed.

Lemma fold_history_ok `{P : Persistence}
    (trace : list (Req.user * Request)) (s : DB * creators) :
  history_ok s ->
  Forall (fun ur => keeps_organizer (snd ur) = true) trace ->
  history_ok (fold_left step trace s).
Proof.
  revert s. induction trace as [|ur t IH]; simpl; intros s Hs Ht; [assumption|].
  inversion Ht as [|? ? Hur Ht']; subst.
  apply IH; [now apply step_history_ok | assumption].
Qed.

(** C3, as worded, fails: alice creates an Event and then updates it with a
    body carrying [organizer: "mallory"]; the stored organizer is then
    mallory, who did not create it. *)
Lemma organizer_invariant_broken :
  ~ organizer_invariant
      (@run sampleSchemas [(alice, Create fair); (alice, Update 0%N hand_over)]).
Proof.
  intro H.
  set (e := EventSchema.mk 0%N "Street fair" "community" 1800000000000%Z
              "upcoming" philadelphia "mallory").
  specialize (H e). simpl in H.
  assert (Hin : In e (events (fst (@run sampleSchemas
                   [(alice, Create fair); (alice, Update 0%N hand_over)]))))
    by (vm_compute; left; reflexivity).
  specialize (H Hin). vm_compute in H. discriminate.
Qed.

(** C3, amended: along every history of Create, Update and Delete requests
    that starts from the empty database and in which no Update body carries
    an [organizer] field, every stored Event's organizer is the id of the
    user whose Create request persisted it. *)
Theorem organizer_invariant_holds `{P : Persistence}
    (trace : list (Req.user * Request))
    (Hkeep : Forall (fun ur => keeps_organizer (snd ur) = true) trace) :
  organizer_invariant (run trace).
Proof.
  apply (fold_history_ok trace (emptyDB, [])); [|assumption].
  split; [apply wf_empty|]. split; [|constructor].
  intros e [].
Qed.

Lemma organizer_invariant_holds_witness :
  organizer_invariant
    (@run sampleSchemas
       [(alice, Create fair); (root, Update 0%N move); (bob, Delete 0%N);
        (root, Create fair_wide)])
  /\ map EventSchema.organizer
       (events (fst (@run sampleSchemas
          [(alice, Create fair); (root, Update 0%N move); (bob, Delete 0%N);
           (root, Create fair_wide)])))
     = ["alice"; "root"].
Proof.
  split.
  - apply (@organizer_invariant_holds sampleSchemas).
    repeat constructor.
  - reflexivity.
Defined.

(** * Further properties of the handlers *)

(** ** Read-only queries *)

Lemma populate_base `{P : Persistence} (select : list string)
    (e : EventSchema.doc) :
  base (Event.populate select e) = e.
Proof. reflexivity. Qed.

Lemma map_populate_base `{P : Persistence} (select : list string)
    (l : list EventSchema.doc) :
  map base (map (Event.populate select) l) = l.
Proof.
  rewrite map_map. induction l as [|x t IH]; simpl; [reflexivity|].
  f_equal. exact IH.
Qed.

Lemma date_desc_total (a b : EventSchema.doc) :
  date_desc a b = false -> date_desc b a = true.
Proof. unfold date_desc. rewrite Z.leb_gt, Z.leb_le. lia. Qed.

Lemma date_desc_trans (a b c : EventSchema.doc) :
  date_desc a b = true -> date_desc b c = true -> date_desc a c = true.
Proof. unfold date_desc. rewrite !Z.leb_le. lia. Qed.

Lemma StronglySorted_app_cross {A : Type} (R : A -> A -> Prop) (l1 l2 : list A) :
  StronglySorted R (l1 ++ l2) ->
  forall a b, In a l1 -> In b l2 -> R a b.
Proof.
  induction l1 as [|x t IH]; simpl; [tauto|].
  intros H a b Ha Hb. inversion H as [|? ? Ht Hx]; subst.
  destruct Ha as [->|Ha]; [|now apply IH].
  rewrite Forall_forall in Hx. apply Hx, in_or_app. now right.
Qed.

(** X1: the single-Event query never writes.  It answers 404 exactly when no
    stored Event has the id; otherwise it answers 200 with a stored Event of
    that id, the only one on a well-formed database. *)
Theorem getEvent_reads `{P : Persistence} (id : ObjectId) (db : DB) :
  fst (getEvent id db) = db
  /\ ((forall e, In e (events db) -> EventSchema._id e <> id) ->
      getEvent id db
      = (db, Throw (ErrorResponse
                      ("Event not found with id of " ++ oid_string id) 404)))
  /\ (forall e,
         In e (events db) -> EventSchema._id e = id ->
         exists p,
           getEvent id db = (db, Ok (mkResponse 200 true None (DataPopulated p)))
           /\ In (base p) (events db)
           /\ EventSchema._id (base p) = id
           /\ (wf db -> base p = e)).
Proof.
  split; [|split].
  - unfold getEvent, bind, Event.findById, ret, throw.
    now destruct (find _ _).
  - intro Hnone. apply resolves_none in Hnone.
    unfold getEvent, bind, Event.findById, ret, throw.
    unfold resolves in Hnone. now rewrite Hnone.
  - intros e Hin Hid.
    destruct (resolves db id) as [e'|] eqn:Hr.
    + exists (Event.populate ["name"; "email"] e').
      pose proof (resolves_some _ _ _ Hr) as [Hin' Hid'].
      split; [|split; [|split]].
      * unfold getEvent, bind, Event.findById, ret, throw.
        unfold resolves in Hr. now rewrite Hr.
      * exact Hin'.
      * exact Hid'.
      * intro Hwf. pose proof (resolves_of_in db e Hwf Hin) as Hr'.
        rewrite Hid, Hr in Hr'. now injection Hr'.
    + exfalso. now apply (proj1 (resolves_none db id) Hr e).
Qed.

Lemma getEvent_reads_witness :
  wf one_fair
  /\ exists e p,
       In e (events one_fair) /\ EventSchema._id e = 0%N
       /\ @getEvent sampleSchemas 0%N one_fair
          = (one_fair, Ok (mkResponse 200 true None (DataPopulated p)))
       /\ base p = e
       /\ EventSchema.title (base p) = "Street fair".
Proof.
  assert (Hwf : wf one_fair) by apply (@wf_createEvent sampleSchemas), wf_empty.
  split; [exact Hwf|].
  assert (exists e, In e (events one_fair) /\ EventSchema._id e = 0%N
                    /\ EventSchema.title e = "Street fair")
    as (e & Hin & Hid & Ht) by (vm_compute; eauto).
  destruct (proj2 (proj2 (@getEvent_reads sampleSchemas 0%N one_fair)) e Hin Hid)
    as (p & Hget & _ & _ & Hsame).
  exists e, p. rewrite (Hsame Hwf). auto.
Defined.

(** X2: the category query never writes and never fails.  It answers 200
    with every stored Event of the category dated at or after the time of
    the query, each as often as it is stored and none left out (there is no
    limit), in ascending order of date, [count] being their number; with no
    match the answer is the empty list. *)
Theorem getEventsByCategory_all `{P : Persistence}
    (now : Z) (category : string) (db : DB) :
  exists l,
    getEventsByCategory now category db
    = (db, Ok (mkResponse 200 true (Some (List.length l)) (DataPopulatedList l)))
    /\ Permutation (map base l)
         (filter (fun e => (EventSchema.category e =? category)
                           && (now <=? EventSchema.date e)%Z) (events db))
    /\ (forall e, In e (map base l) <->
                  In e (events db) /\ EventSchema.category e = category
                  /\ (now <= EventSchema.date e)%Z)
    /\ StronglySorted
         (fun p q => (EventSchema.date (base p) <= EventSchema.date (base q))%Z) l
    /\ ((forall e, In e (events db) ->
                   EventSchema.category e <> category
                   \/ (EventSchema.date e < now)%Z) -> l = []).
Proof.
  set (q := fun e => (EventSchema.category e =? category)
                     && (now <=? EventSchema.date e)%Z).
  exists (map (Event.populate ["name"]) (sort_by date_asc (filter q (events db)))).
  assert (Hq : forall e, q e = true <->
                         EventSchema.category e = category
                         /\ (now <= EventSchema.date e)%Z).
  { intro e. unfold q. rewrite andb_true_iff, String.eqb_eq, Z.leb_le. tauto. }
  split; [reflexivity|].
  split; [rewrite map_populate_base; apply sort_by_perm|].
  split; [|split].
  - intro e. rewrite map_populate_base. split.
    + intro H. apply (Permutation_in _ (sort_by_perm date_asc _)) in H.
      apply filter_In in H as [Hin H]. apply Hq in H. tauto.
    + intros (Hin & Hc & Hd).
      apply (Permutation_in _ (Permutation_sym (sort_by_perm date_asc _))).
      apply filter_In. split; [assumption|]. apply Hq. tauto.
  - apply StronglySorted_map with (R := fun a b => date_asc a b = true).
    + intros a b. unfold date_asc. simpl. apply Z.leb_le.
    + apply sort_by_sorted; [apply date_asc_total | apply date_asc_trans].
  - intro Hnone. rewrite filter_nil; [reflexivity|].
    intros e Hin. apply not_true_is_false. intro H. apply Hq in H.
    destruct (Hnone e Hin) as [Hc|Hd]; [tauto | lia].
Qed.

(** X3: the per-user query never writes and never fails.  It answers 200
    with every stored Event whose organizer is the given user, each as often
    as it is stored and none left out, in descending order of date, [count]
    being their number; for a user who organizes nothing the answer is the
    empty list. *)
Theorem getUserEvents_all (userId : UserId) (db : DB) :
  exists l,
    getUserEvents userId db
    = (db, Ok (mkResponse 200 true (Some (List.length l)) (DataEvents l)))
    /\ Permutation l
         (filter (fun e => EventSchema.organizer e =? userId) (events db))
    /\ (forall e, In e l <->
                  In e (events db) /\ EventSchema.organizer e = userId)
    /\ StronglySorted
         (fun a b => (EventSchema.date b <= EventSchema.date a)%Z) l
    /\ ((forall e, In e (events db) -> EventSchema.organizer e <> userId) ->
        l = []).
Proof.
  set (q := fun e => EventSchema.organizer e =? userId).
  exists (sort_by date_desc (filter q (events db))).
  split; [reflexivity|].
  split; [apply sort_by_perm|].
  split; [|split].
  - intro e. split.
    + intro H. apply (Permutation_in _ (sort_by_perm date_desc _)) in H.
      apply filter_In in H as [Hin H]. apply String.eqb_eq in H. tauto.
    + intros (Hin & Ho).
      apply (Permutation_in _ (Permutation_sym (sort_by_perm date_desc _))).
      apply filter_In. split; [assumption|]. now apply String.eqb_eq.
  - pose proof (sort_by_sorted date_desc date_desc_total date_desc_trans
                  (filter q (events db))) as Hs.
    pose proof (StronglySorted_map
                  (fun a b => date_desc a b = true)
                  (fun a b => (EventSchema.date b <= EventSchema.date a)%Z)
                  (fun e : EventSchema.doc => e) _
                  (fun a b H => proj1 (Z.leb_le _ _) H) Hs) as Hs'.
    now rewrite map_id in Hs'.
  - intro Hnone. rewrite filter_nil; [reflexivity|].
    intros e Hin. apply String.eqb_neq. now apply Hnone.
Qed.

(** X4: the upcoming-events query returns the earliest matches: the number
    of Events returned is the smaller of 10 and the number of stored Events
    that are upcoming and dated at or after the time of the query, and the
    matches left out are dated no earlier than any Event returned. *)
Theorem getUpcomingEvents_earliest `{P : Persistence} (now : Z) (db : DB) :
  exists l rest,
    getUpcomingEvents now db
    = (db, Ok (mkResponse 200 true (Some (List.length l)) (DataPopulatedList l)))
    /\ Permutation (map base l ++ rest)%list
         (filter (fun e => (now <=? EventSchema.date e)%Z
                           && (EventSchema.status e =? "upcoming")) (events db))
    /\ List.length l
       = Nat.min 10
           (List.length
              (filter (fun e => (now <=? EventSchema.date e)%Z
                                && (EventSchema.status e =? "upcoming"))
                      (events db)))
    /\ (forall p e, In p l -> In e rest ->
                    (EventSchema.date (base p) <= EventSchema.date e)%Z).
Proof.
  set (q := fun e => (now <=? EventSchema.date e)%Z
                     && (EventSchema.status e =? "upcoming")).
  set (sorted := sort_by date_asc (filter q (events db))).
  exists (map (Event.populate ["name"]) (firstn 10 sorted)), (skipn 10 sorted).
  split; [reflexivity|].
  rewrite map_populate_base, firstn_skipn, length_map.
  split; [apply sort_by_perm|].
  split.
  { rewrite length_firstn. f_equal.
    apply Permutation_length, sort_by_perm. }
  intros p e Hp He. apply in_map_iff in Hp as (a & <- & Ha). simpl.
  apply Z.leb_le. change (date_asc a e = true).
  apply (StronglySorted_app_cross (fun a b => date_asc a b = true)
           (firstn 10 sorted) (skipn 10 sorted)); try assumption.
  rewrite firstn_skipn.
  apply sort_by_sorted; [apply date_asc_total | apply date_asc_trans].
Qed.

(** ** What a failed write leaves behind *)

Lemma may_create_true (user : Req.user) :
  Req.role user = "ngo" \/ Req.role user = "admin" -> may_create user = true.
Proof.
  unfold may_create. intros [H|H]; apply String.eqb_eq in H; rewrite H;
    [reflexivity | apply orb_true_r].
Qed.

(** X5: whatever its outcome, Create only appends: stored Events and
    Geofences are never changed or removed.  It answers 201 exactly when it
    has appended one Event and one Geofence; a 403 leaves the database
    untouched; the only other error is a validation error, which never adds
    a Geofence but may leave the new Event behind: when the Event validates
    and its Geofence does not, the Event stays stored without a Geofence. *)
Theorem createEvent_outcomes `{P : Persistence}
    (user : Req.user) (body : Req.body) (db : DB) :
  (exists es gs,
      events (fst (createEvent user body db)) = (events db ++ es)%list
      /\ geofences (fst (createEvent user body db)) = (geofences db ++ gs)%list
      /\ match snd (createEvent user body db) with
         | Ok r =>
             exists e g, es = [e] /\ gs = [g]
                         /\ r = mkResponse 201 true None (DataEvent e)
         | Throw (ErrorResponse _ code) =>
             code = 403%Z /\ fst (createEvent user body db) = db
         | Throw ValidationError =>
             gs = []
             /\ (es = []
                 \/ exists e, es = [e]
                              /\ EventSchema.organizer e = Req.id user
                              /\ validEvent e = true)
         | Throw TypeError => False
         end)
  /\ (forall e,
         Req.role user = "ngo" \/ Req.role user = "admin" ->
         Event.cast (nextId db) (Req.set_organizer (Req.id user) body) = Some e ->
         validEvent e = true ->
         validGeofence
           (GeofenceSchema.mk
              (N.succ (nextId db)) (EventSchema._id e)
              (js_or (Req.geofenceRadius body) (JNum 500))
              (EventSchema.coordinates e)
              (GeofenceSchema.mkImpact
                 (js_or (Req.trafficImpact body) (JStr "low"))
                 (Some ("Traffic impact for " ++ EventSchema.title e)))
              (Req.id user)) = false ->
         createEvent user body db
         = (mkDB (events db ++ [e]) (geofences db) (N.succ (nextId db)),
            Throw ValidationError)).
Proof.
  split.
  - destruct (may_create user) eqn:Hc.
    + rewrite (createEvent_allowed _ _ _ Hc).
      destruct (Event.cast _ _) as [e|] eqn:Hcast.
      * apply cast_organizer in Hcast as (_ & Horg & _).
        destruct (validEvent e) eqn:Hv.
        -- cbv zeta. destruct (validGeofence _); simpl.
           ++ do 2 eexists. repeat split; eauto.
           ++ exists [e], []. rewrite app_nil_r. repeat split. right. eauto.
        -- exists [], []. simpl. rewrite !app_nil_r. auto.
      * exists [], []. simpl. rewrite !app_nil_r. auto.
    + rewrite (createEvent_denied _ _ _ Hc).
      exists [], []. simpl. rewrite !app_nil_r. auto.
  - intros e Hrole Hcast Hv Hg.
    rewrite (createEvent_allowed _ _ _ (may_create_true _ Hrole)).
    rewrite Hcast, Hv. cbv zeta. now rewrite Hg.
Qed.

Lemma createEvent_outcomes_witness :
  exists e,
    @createEvent sampleSchemas alice fair_wide emptyDB
    = (mkDB [e] [] 1%N, Throw ValidationError)
    /\ EventSchema.title e = "Street fair"
    /\ EventSchema.organizer e = "alice".
Proof.
  assert (exists e, Event.cast 0%N (Req.set_organizer "alice" fair_wide) = Some e)
    as (e & He) by (vm_compute; eauto).
  exists e. split.
  - apply (proj2 (@createEvent_outcomes sampleSchemas alice fair_wide emptyDB) e).
    + left. reflexivity.
    + exact He.
    + reflexivity.
    + vm_compute in He. injection He as <-. reflexivity.
  - vm_compute in He. injection He as <-. split; reflexivity.
Defined.

(** X6: for an Update handled on its own, with no other request running
    between its awaits: a 404 or 403 answer leaves the database untouched,
    the 404 being for an id that resolves to no Event and the 403 for a
    caller who may not modify the Event it resolves to.  A validation error
    never changes a Geofence but may leave the Event updated: when the Event
    validates and the paired Geofence's update does not, the Event keeps its
    new fields while the Geofence keeps its old ones. *)
Theorem updateEvent_outcomes `{P : Persistence}
    (user : Req.user) (id : ObjectId) (body : Req.body) (db : DB) :
  (forall m code,
      snd (updateEvent user id body db) = Throw (ErrorResponse m code) ->
      fst (updateEvent user id body db) = db
      /\ (code = 404%Z /\ resolves db id = None
          \/ code = 403%Z
             /\ exists e, resolves db id = Some e
                          /\ may_modify user e = false))
  /\ (snd (updateEvent user id body db) = Throw ValidationError ->
      geofences (fst (updateEvent user id body db)) = geofences db
      /\ exists e,
           resolves db id = Some e
           /\ (fst (updateEvent user id body db) = db
               \/ events (fst (updateEvent user id body db))
                  = update_first (Event.byId id) (Event.applyUpdate body)
                      (events db)))
  /\ (forall e xy g,
         resolves db id = Some e ->
         EventSchema.organizer e = Req.id user \/ Req.role user = "admin" ->
         validEvent (Event.applyUpdate body e) = true ->
         Req.coordinates body = Some xy ->
         paired db id = Some g ->
         validGeofence
           (Geofence.applyUpdate xy
              (js_or (Req.geofenceRadius body) (JNum 500))
              (GeofenceSchema.mkImpact
                 (js_or (Req.trafficImpact body) (JStr "low")) None) g) = false ->
         updateEvent user id body db
         = (mkDB (update_first (Event.byId id) (Event.applyUpdate body) (events db))
                 (geofences db) (nextId db),
            Throw ValidationError)).
Proof.
  split; [|split].
  - intros m code.
    destruct (resolves db id) as [e|] eqn:Hr.
    + destruct (may_modify user e) eqn:Hm.
      * rewrite (updateEvent_allowed _ _ _ _ _ Hr Hm). cbv zeta.
        destruct (validEvent _); [|discriminate].
        destruct (Req.coordinates body); [|discriminate].
        destruct (paired db id); [|discriminate].
        destruct (validGeofence _); discriminate.
      * rewrite (updateEvent_denied _ _ _ _ _ Hr Hm). simpl.
        intro H. injection H as _ <-.
        split; [reflexivity|]. right. eauto.
    + rewrite (updateEvent_notfound _ _ _ _ Hr). simpl.
      intro H. injection H as _ <-. auto.
  - destruct (resolves db id) as [e|] eqn:Hr.
    + destruct (may_modify user e) eqn:Hm.
      * rewrite (updateEvent_allowed _ _ _ _ _ Hr Hm). cbv zeta.
        destruct (validEvent _); [|simpl; eauto].
        destruct (Req.coordinates body); [|discriminate].
        destruct (paired db id); [|discriminate].
        destruct (validGeofence _); [discriminate|]. simpl. eauto.
      * rewrite (updateEvent_denied _ _ _ _ _ Hr Hm). discriminate.
    + rewrite (updateEvent_notfound _ _ _ _ Hr). discriminate.
  - intros e xy g Hr Hauth Hv Hxy Hp Hg.
    rewrite (updateEvent_allowed _ _ _ _ _ Hr (may_modify_true _ _ Hauth)).
    cbv zeta. now rewrite Hv, Hxy, Hp, Hg.
Qed.

Lemma updateEvent_outcomes_witness :
  exists db' e g,
    @updateEvent sampleSchemas alice 0%N move_wide one_fair
    = (db', Throw ValidationError)
    /\ resolves db' 0%N = Some e
    /\ EventSchema.coordinates e = pune
    /\ paired db' 0%N = Some g
    /\ GeofenceSchema.center g = philadelphia.
Proof.
  assert (exists e, resolves one_fair 0%N = Some e) as (e & He)
    by (vm_compute; eauto).
  assert (exists g, paired one_fair 0%N = Some g) as (g & Hg)
    by (vm_compute; eauto).
  assert (Ha : EventSchema.organizer e = Req.id alice \/ Req.role alice = "admin").
  { left. vm_compute in He. injection He as <-. reflexivity. }
  assert (Hbad : @validGeofence sampleSchemas
                   (Geofence.applyUpdate pune
                      (js_or (Req.geofenceRadius move_wide) (JNum 500))
                      (GeofenceSchema.mkImpact
                         (js_or (Req.trafficImpact move_wide) (JStr "low")) None)
                      g) = false).
  { vm_compute in Hg. injection Hg as <-. reflexivity. }
  pose proof (proj2 (proj2 (@updateEvent_outcomes
                              sampleSchemas alice 0%N move_wide one_fair))
                e pune g He Ha eq_refl eq_refl Hg Hbad) as Hupd.
  eexists. exists (Event.applyUpdate move_wide e), g.
  split; [exact Hupd|].
  vm_compute in He. injection He as <-.
  vm_compute in Hg. injection Hg as <-.
  repeat split.
Defined.

(** ** Consistency of the two collections *)

Lemma orphan_free_update (db : DB) (i : ObjectId) (b : Req.body)
    (q : GeofenceSchema.doc -> bool)
    (f : GeofenceSchema.doc -> GeofenceSchema.doc) :
  (forall g, GeofenceSchema.event (f g) = GeofenceSchema.event g) ->
  no_orphans db ->
  no_orphans (mkDB (update_first (Event.byId i) (Event.applyUpdate b) (events db))
                   (update_first q f (geofences db)) (nextId db)).
Proof.
  intros Hf Hno g Hg. simpl in *.
  assert (exists g0, In g0 (geofences db)
                     /\ GeofenceSchema.event g0 = GeofenceSchema.event g)
    as (g0 & Hg0 & <-).
  { apply in_update_first in Hg as [Hg|(x & Hx & _ & ->)]; eauto. }
  destruct (Hno g0 Hg0) as (e & He & Hid).
  assert (Hin : In (GeofenceSchema.event g0)
                   (map EventSchema._id
                      (update_first (Event.byId i) (Event.applyUpdate b)
                         (events db)))).
  { rewrite update_first_map_key by reflexivity.
    rewrite <- Hid. now apply in_map. }
  apply in_map_iff in Hin as (e' & He' & Hin). eauto.
Qed.

Lemma no_orphans_handle `{P : Persistence}
    (user : Req.user) (r : Request) (db : DB) :
  wf db -> no_orphans db -> no_orphans (fst (handle user r db)).
Proof.
  intros Hwf Hno. destruct r as [body|id body|id]; simpl.
  - (* Create *)
    destruct (may_create user) eqn:Hc;
      [|now rewrite (createEvent_denied _ _ _ Hc)].
    rewrite (createEvent_allowed _ _ _ Hc).
    destruct (Event.cast _ _) as [e|]; [|assumption].
    destruct (validEvent e); [|assumption].
    cbv zeta. destruct (validGeofence _); simpl; intros g Hg; simpl in *.
    + apply in_app_or in Hg as [Hg|[<-|[]]].
      * destruct (Hno g Hg) as (e0 & He0 & Hid).
        exists e0. split; [apply in_or_app; now left | assumption].
      * exists e. split; [apply in_or_app; right; now left | reflexivity].
    + destruct (Hno g Hg) as (e0 & He0 & Hid).
      exists e0. split; [apply in_or_app; now left | assumption].
  - (* Update *)
    destruct (resolves db id) as [e|] eqn:Hr;
      [|now rewrite (updateEvent_notfound _ _ _ _ Hr)].
    destruct (may_modify user e) eqn:Hm;
      [|now rewrite (updateEvent_denied _ _ _ _ _ Hr Hm)].
    rewrite (updateEvent_allowed _ _ _ _ _ Hr Hm). cbv zeta.
    pose proof (orphan_free_update db id body (fun _ => false) (fun g => g)
                  (fun _ => eq_refl) Hno) as Hkeep.
    replace (update_first (fun _ => false) (fun g => g) (geofences db))
      with (geofences db) in Hkeep
      by (symmetry; apply update_first_none, find_none_forall; auto).
    destruct (validEvent _); [|assumption].
    destruct (Req.coordinates body) as [xy|]; [|assumption].
    destruct (paired db id) as [g|]; [|assumption].
    destruct (validGeofence _); [|assumption].
    now apply orphan_free_update.
  - (* Delete *)
    destruct (resolves db id) as [e|] eqn:Hr;
      [|now rewrite (deleteEvent_notfound _ _ _ Hr)].
    destruct (may_modify user e) eqn:Hm;
      [|now rewrite (deleteEvent_denied _ _ _ _ Hr Hm)].
    rewrite (deleteEvent_allowed _ _ _ _ Hr Hm). intros g Hg. simpl in *.
    destruct Hwf as [_ _ _ _ Hone].
    pose proof (remove_first_key_gone GeofenceSchema.event id (geofences db)
                  Hone g Hg) as Hne.
    apply in_remove_first in Hg. destruct (Hno g Hg) as (e0 & He0 & Hid).
    exists e0. split; [|assumption].
    apply remove_first_other; [assumption|].
    apply N.eqb_neq. now rewrite Hid.
Qed.

Lemma fold_consistent `{P : Persistence}
    (trace : list (Req.user * Request)) (s : DB * creators) :
  wf (fst s) -> no_orphans (fst s) ->
  wf (fst (fold_left step trace s)) /\ no_orphans (fst (fold_left step trace s)).
Proof.
  revert s. induction trace as [|ur t IH]; simpl; intros s Hwf Hno; [tauto|].
  apply IH; unfold step; simpl.
  - now apply wf_handle.
  - now apply no_orphans_handle.
Qed.

(** X7: when Create, Update and Delete requests are handled one at a time,
    each running to completion before the next starts, then in every
    database reached from the empty one, whoever sends the requests and
    whether they succeed or fail, no two Geofences reference the same Event
    and every Geofence references a stored Event. *)
Theorem reachable_consistent `{P : Persistence}
    (trace : list (Req.user * Request)) :
  NoDup (map GeofenceSchema.event (geofences (fst (run trace))))
  /\ no_orphans (fst (run trace)).
Proof.
  destruct (fold_consistent trace (emptyDB, []) wf_empty) as [Hwf Hno].
  { intros g []. }
  fold (run trace) in Hwf, Hno.
  pose proof Hwf as [_ _ _ _ Hone]. auto.
Qed.

(** ** How the handlers compose *)

Lemma find_snoc_fresh {A : Type} (p : A -> bool) (l : list A) (x : A) :
  find p l = None -> p x = true -> find p (l ++ [x]) = Some x.
Proof.
  induction l as [|y t IH]; simpl; intros Hl Hx; [now rewrite Hx|].
  destruct (p y); [discriminate | auto].
Qed.

Lemma remove_first_snoc_fresh {A : Type} (p : A -> bool) (l : list A) (x : A) :
  find p l = None -> p x = true -> remove_first p (l ++ [x]) = l.
Proof.
  induction l as [|y t IH]; simpl; intros Hl Hx; [now rewrite Hx|].
  destruct (p y); [discriminate|]. now rewrite IH.
Qed.

Lemma resolves_unissued (db : DB) (i : ObjectId) :
  wf db -> (nextId db <= i)%N -> resolves db i = None.
Proof.
  intros [He _ _ _ _] Hi. apply resolves_none. intros e Hin.
  rewrite Forall_forall in He. specialize (He e Hin). simpl in He. lia.
Qed.

Lemma getEvent_found `{P : Persistence} (id : ObjectId) (db : DB)
    (e : EventSchema.doc) :
  resolves db id = Some e ->
  getEvent id db
  = (db, Ok (mkResponse 200 true None
               (DataPopulated (Event.populate ["name"; "email"] e)))).
Proof.
  unfold resolves, getEvent, bind, Event.findById, ret. now intros ->.
Qed.

Lemma getEvent_notfound `{P : Persistence} (id : ObjectId) (db : DB) :
  resolves db id = None ->
  getEvent id db
  = (db, Throw (ErrorResponse ("Event not found with id of " ++ oid_string id) 404)).
Proof.
  unfold resolves, getEvent, bind, Event.findById, throw. now intros ->.
Qed.

Lemma deleteEvent_ok (user : Req.user) (id : ObjectId) (db db' : DB)
    (r : Response) :
  deleteEvent user id db = (db', Ok r) ->
  exists e,
    resolves db id = Some e
    /\ may_modify user e = true
    /\ r = mkResponse 200 true None DataEmpty
    /\ db' = mkDB (remove_first (Event.byId id) (events db))
                  (remove_first (Geofence.byEvent id) (geofences db))
                  (nextId db).
Proof.
  intro Hok. destruct (resolves db id) as [e|] eqn:Hr.
  - destruct (may_modify user e) eqn:Hm.
    + rewrite (deleteEvent_allowed _ _ _ _ Hr Hm) in Hok.
      injection Hok as <- <-. eauto.
    + rewrite (deleteEvent_denied _ _ _ _ Hr Hm) in Hok. discriminate.
  - rewrite (deleteEvent_notfound _ _ _ Hr) in Hok. discriminate.
Qed.

Lemma resolves_after_update `{P : Persistence}
    (user : Req.user) (id : ObjectId) (body : Req.body) (db db' : DB)
    (r : Response) :
  updateEvent user id body db = (db', Ok r) ->
  exists e,
    resolves db id = Some e
    /\ may_modify user e = true
    /\ r = mkResponse 200 true None (DataEvent (Event.applyUpdate body e))
    /\ resolves db' id = Some (Event.applyUpdate body e).
Proof.
  intro Hok.
  destruct (updateEvent_ok _ _ _ _ _ _ Hok) as (e & Hr & Hm & -> & Hev & _).
  exists e. repeat split; try assumption.
  unfold resolves. rewrite Hev. apply find_update_first; [exact Hr|].
  apply byId_true. simpl. now apply resolves_some in Hr.
Qed.

(** X8: on a well-formed database, an Event that Create has just answered
    with can be read back under its id, and its creator can delete it at
    once; that Delete puts both collections back exactly as they were
    before the Create. *)
Theorem create_get_delete_roundtrip `{P : Persistence}
    (user : Req.user) (body : Req.body) (db db' : DB) (r : Response)
    (Hwf : wf db)
    (Hok : createEvent user body db = (db', Ok r)) :
  exists e,
    r = mkResponse 201 true None (DataEvent e)
    /\ getEvent (EventSchema._id e) db'
       = (db', Ok (mkResponse 200 true None
                     (DataPopulated (Event.populate ["name"; "email"] e))))
    /\ exists db'',
         deleteEvent user (EventSchema._id e) db'
         = (db'', Ok (mkResponse 200 true None DataEmpty))
         /\ events db'' = events db
         /\ geofences db'' = geofences db.
Proof.
  destruct (createEvent_ok _ _ _ _ _ Hok) as (e & g & -> & -> & Hid & Horg & Hg).
  assert (Hne : resolves db (EventSchema._id e) = None)
    by (apply resolves_unissued; [assumption | rewrite Hid; lia]).
  assert (Hng : paired db (EventSchema._id e) = None)
    by (apply paired_fresh; [assumption | rewrite Hid; lia]).
  assert (Hbe : Event.byId (EventSchema._id e) e = true) by now apply byId_true.
  assert (Hbg : Geofence.byEvent (EventSchema._id e) g = true)
    by (apply byEvent_true; now subst g).
  assert (Hr : resolves (mkDB (events db ++ [e]) (geofences db ++ [g])
                              (N.succ (N.succ (nextId db))))
                 (EventSchema._id e) = Some e)
    by (unfold resolves; simpl; now apply find_snoc_fresh).
  exists e. split; [reflexivity|]. split; [now apply getEvent_found|].
  eexists. split.
  - apply deleteEvent_allowed with e; [exact Hr|].
    apply may_modify_true. now left.
  - simpl. split; now apply remove_first_snoc_fresh.
Qed.

Lemma create_get_delete_roundtrip_witness :
  wf one_fair
  /\ exists db' r e db'',
       @createEvent sampleSchemas alice fair_zero one_fair = (db', Ok r)
       /\ r = mkResponse 201 true None (DataEvent e)
       /\ deleteEvent alice (EventSchema._id e) db'
          = (db'', Ok (mkResponse 200 true None DataEmpty))
       /\ events db'' = events one_fair
       /\ geofences db'' = geofences one_fair.
Proof.
  assert (Hwf : wf one_fair) by apply (@wf_createEvent sampleSchemas), wf_empty.
  split; [exact Hwf|].
  assert (exists db' r,
             @createEvent sampleSchemas alice fair_zero one_fair = (db', Ok r))
    as (db' & r & E) by (vm_compute; eauto).
  destruct (@create_get_delete_roundtrip
              sampleSchemas alice fair_zero one_fair db' r Hwf E)
    as (e & Hr & _ & db'' & Hdel & He & Hg).
  exists db', r, e, db''. auto.
Defined.

(** X9: after a successful Update the Event reads back, under the same id,
    as the document the Update answered with: the stored Event with the
    fields of the request body put in place of its own. *)
Theorem update_then_get `{P : Persistence}
    (user : Req.user) (id : ObjectId) (body : Req.body) (db db' : DB)
    (r : Response)
    (Hok : updateEvent user id body db = (db', Ok r)) :
  exists e e',
    resolves db id = Some e
    /\ r = mkResponse 200 true None (DataEvent e')
    /\ getEvent id db'
       = (db', Ok (mkResponse 200 true None
                     (DataPopulated (Event.populate ["name"; "email"] e'))))
    /\ EventSchema._id e' = id
    /\ EventSchema.title e'
       = match Req.title body with Some v => v | None => EventSchema.title e end
    /\ EventSchema.category e'
       = match Req.category body with
         | Some v => v
         | None => EventSchema.category e
         end
    /\ EventSchema.date e'
       = match Req.date body with Some v => v | None => EventSchema.date e end
    /\ EventSchema.status e'
       = match Req.status body with Some v => v | None => EventSchema.status e end
    /\ EventSchema.coordinates e'
       = match Req.coordinates body with
         | Some v => v
         | None => EventSchema.coordinates e
         end
    /\ EventSchema.organizer e'
       = match Req.organizer body with
         | Some v => v
         | None => EventSchema.organizer e
         end.
Proof.
  destruct (resolves_after_update _ _ _ _ _ _ Hok) as (e & Hr & _ & -> & Hr').
  exists e, (Event.applyUpdate body e).
  split; [exact Hr|]. split; [reflexivity|].
  split; [now apply getEvent_found|].
  split; [simpl; now apply resolves_some in Hr|].
  repeat split.
Qed.

Lemma update_then_get_witness :
  exists db' r e',
    @updateEvent sampleSchemas root 0%N move one_fair = (db', Ok r)
    /\ @getEvent sampleSchemas 0%N db'
       = (db', Ok (mkResponse 200 true None
                     (DataPopulated (@Event.populate sampleSchemas
                                       ["name"; "email"] e'))))
    /\ EventSchema.coordinates e' = pune
    /\ EventSchema.title e' = "Street fair".
Proof.
  assert (exists db' r,
             @updateEvent sampleSchemas root 0%N move one_fair = (db', Ok r))
    as (db' & r & E) by (vm_compute; eauto).
  destruct (@update_then_get sampleSchemas root 0%N move one_fair db' r E)
    as (e & e' & He & _ & Hget & _ & Ht & _ & _ & _ & Hc & _).
  exists db', r, e'. split; [exact E|]. split; [exact Hget|].
  vm_compute in He. injection He as <-. auto.
Defined.

(** X10: on a well-formed database, once a Delete has succeeded the id is
    gone for everybody: reading, updating and deleting it all answer 404,
    whoever asks, and no Geofence references it. *)
Theorem delete_then_gone `{P : Persistence}
    (user : Req.user) (id : ObjectId) (db db' : DB) (r : Response)
    (Hwf : wf db)
    (Hok : deleteEvent user id db = (db', Ok r)) :
  (exists m, getEvent id db' = (db', Throw (ErrorResponse m 404)))
  /\ (forall u b, exists m,
         updateEvent u id b db' = (db', Throw (ErrorResponse m 404)))
  /\ (forall u, exists m,
         deleteEvent u id db' = (db', Throw (ErrorResponse m 404)))
  /\ paired db' id = None.
Proof.
  destruct (deleteEvent_ok _ _ _ _ _ Hok) as (e & Hr & _ & _ & ->).
  destruct Hwf as [_ _ Hue _ Hone].
  assert (Hgone : resolves (mkDB (remove_first (Event.byId id) (events db))
                               (remove_first (Geofence.byEvent id) (geofences db))
                               (nextId db)) id = None).
  { apply resolves_none. simpl. intros e' H.
    now apply (remove_first_key_gone EventSchema._id id (events db)). }
  split; [eexists; now apply getEvent_notfound|].
  split; [intros; eexists; now apply updateEvent_notfound|].
  split; [intros; eexists; now apply deleteEvent_notfound|].
  apply paired_none. simpl. intros g H.
  now apply (remove_first_key_gone GeofenceSchema.event id (geofences db)).
Qed.

Lemma delete_then_gone_witness :
  wf one_fair
  /\ exists db' r,
       deleteEvent alice 0%N one_fair = (db', Ok r)
       /\ (exists m, @getEvent sampleSchemas 0%N db'
                     = (db', Throw (ErrorResponse m 404)))
       /\ (exists m, deleteEvent root 0%N db'
                     = (db', Throw (ErrorResponse m 404))).
Proof.
  assert (Hwf : wf one_fair) by apply (@wf_createEvent sampleSchemas), wf_empty.
  split; [exact Hwf|].
  assert (exists db' r, deleteEvent alice 0%N one_fair = (db', Ok r))
    as (db' & r & E) by (vm_compute; eauto).
  destruct (@delete_then_gone sampleSchemas alice 0%N one_fair db' r Hwf E)
    as (Hget & _ & Hdel & _).
  exists db', r. split; [exact E|]. split; [exact Hget | apply Hdel].
Defined.

(** ** What Update and Delete leave alone *)

Lemma in_update_first_other {A : Type} (p : A -> bool) (f : A -> A)
    (l : list A) (y : A) :
  (forall x, p x = true -> p (f x) = true) -> p y = false ->
  (In y (update_first p f l) <-> In y l).
Proof.
  intros Hf Hy. split.
  - intro H. apply in_update_first in H as [H|(x & Hx & Hp & ->)];
      [assumption|].
    rewrite (Hf x Hp) in Hy. discriminate.
  - intro H. now apply update_first_other.
Qed.

Lemma in_remove_first_other {A : Type} (p : A -> bool) (l : list A) (y : A) :
  p y = false -> (In y (remove_first p l) <-> In y l).
Proof.
  intro Hy. split; [apply in_remove_first|].
  intro H. now apply remove_first_other.
Qed.

(** X11: whatever their outcome, Update and Delete of one id leave every
    Event of another id and every Geofence referencing another Event
    exactly as stored: none is changed, removed or added. *)
Theorem update_delete_frame `{P : Persistence}
    (user : Req.user) (id : ObjectId) (body : Req.body) (db : DB) :
  (forall e, EventSchema._id e <> id ->
             (In e (events (fst (updateEvent user id body db)))
              <-> In e (events db))
             /\ (In e (events (fst (deleteEvent user id db)))
                 <-> In e (events db)))
  /\ (forall g, GeofenceSchema.event g <> id ->
                (In g (geofences (fst (updateEvent user id body db)))
                 <-> In g (geofences db))
                /\ (In g (geofences (fst (deleteEvent user id db)))
                    <-> In g (geofences db))).
Proof.
  assert (Hev : forall e, EventSchema._id e <> id ->
                  In e (update_first (Event.byId id) (Event.applyUpdate body)
                          (events db)) <-> In e (events db)).
  { intros e Hne. apply in_update_first_other.
    - intros x Hx. apply byId_true. simpl. now apply byId_true.
    - now apply N.eqb_neq. }
  assert (Hgf : forall g f, GeofenceSchema.event g <> id ->
                  (forall x, GeofenceSchema.event (f x) = GeofenceSchema.event x) ->
                  In g (update_first (Geofence.byEvent id) f (geofences db))
                  <-> In g (geofences db)).
  { intros g f Hne Hf. apply in_update_first_other.
    - intros x Hx. apply byEvent_true. rewrite Hf. now apply byEvent_true.
    - now apply N.eqb_neq. }
  split.
  - intros e Hne. split.
    + destruct (resolves db id) as [e0|] eqn:Hr;
        [|now rewrite (updateEvent_notfound _ _ _ _ Hr)].
      destruct (may_modify user e0) eqn:Hm;
        [|now rewrite (updateEvent_denied _ _ _ _ _ Hr Hm)].
      rewrite (updateEvent_allowed _ _ _ _ _ Hr Hm). cbv zeta.
      destruct (validEvent _); [|reflexivity].
      destruct (Req.coordinates body); [|now apply Hev].
      destruct (paired db id); [|now apply Hev].
      destruct (validGeofence _); now apply Hev.
    + destruct (resolves db id) as [e0|] eqn:Hr;
        [|now rewrite (deleteEvent_notfound _ _ _ Hr)].
      destruct (may_modify user e0) eqn:Hm;
        [|now rewrite (deleteEvent_denied _ _ _ _ Hr Hm)].
      rewrite (deleteEvent_allowed _ _ _ _ Hr Hm). simpl.
      apply in_remove_first_other. now apply N.eqb_neq.
  - intros g Hne. split.
    + destruct (resolves db id) as [e0|] eqn:Hr;
        [|now rewrite (updateEvent_notfound _ _ _ _ Hr)].
      destruct (may_modify user e0) eqn:Hm;
        [|now rewrite (updateEvent_denied _ _ _ _ _ Hr Hm)].
      rewrite (updateEvent_allowed _ _ _ _ _ Hr Hm). cbv zeta.
      destruct (validEvent _); [|reflexivity].
      destruct (Req.coordinates body); [|reflexivity].
      destruct (paired db id); [|reflexivity].
      destruct (validGeofence _); [|reflexivity].
      now apply Hgf.
    + destruct (resolves db id) as [e0|] eqn:Hr;
        [|now rewrite (deleteEvent_notfound _ _ _ Hr)].
      destruct (may_modify user e0) eqn:Hm;
        [|now rewrite (deleteEvent_denied _ _ _ _ Hr Hm)].
      rewrite (deleteEvent_allowed _ _ _ _ Hr Hm). simpl.
      apply in_remove_first_other. now apply N.eqb_neq.
Qed.

Lemma update_delete_frame_witness :
  exists e g,
    EventSchema._id e = 2%N /\ GeofenceSchema.event g = 2%N
    /\ In e (events two_fairs) /\ In g (geofences two_fairs)
    /\ In e (events (fst (@updateEvent sampleSchemas alice 0%N move two_fairs)))
    /\ In g (geofences (fst (@updateEvent sampleSchemas alice 0%N move two_fairs)))
    /\ In e (events (fst (deleteEvent alice 0%N two_fairs)))
    /\ In g (geofences (fst (deleteEvent alice 0%N two_fairs))).
Proof.
  assert (exists e g,
             events two_fairs = [e; EventSchema.mk 2%N "Street fair" "community"
                                      1800000000000%Z "upcoming" philadelphia
                                      "alice"]
             /\ geofences two_fairs
                = [g; GeofenceSchema.mk 3%N 2%N (JNum 500) philadelphia
                        (GeofenceSchema.mkImpact (JStr "low")
                           (Some "Traffic impact for Street fair")) "alice"])
    as (e0 & g0 & He & Hg) by (vm_compute; eauto).
  pose proof (@update_delete_frame sampleSchemas alice 0%N move two_fairs)
    as [Hev Hgf].
  exists (EventSchema.mk 2%N "Street fair" "community"
            1800000000000%Z "upcoming" philadelphia "alice").
  exists (GeofenceSchema.mk 3%N 2%N (JNum 500) philadelphia
            (GeofenceSchema.mkImpact (JStr "low")
               (Some "Traffic impact for Street fair")) "alice").
  assert (Hin : In (EventSchema.mk 2%N "Street fair" "community"
                      1800000000000%Z "upcoming" philadelphia "alice")
                   (events two_fairs))
    by (rewrite He; right; now left).
  assert (Hing : In (GeofenceSchema.mk 3%N 2%N (JNum 500) philadelphia
                       (GeofenceSchema.mkImpact (JStr "low")
                          (Some "Traffic impact for Street fair")) "alice")
                    (geofences two_fairs))
    by (rewrite Hg; right; now left).
  split; [reflexivity|]. split; [reflexivity|].
  split; [exact Hin|]. split; [exact Hing|].
  assert (Hne : 2%N <> 0%N) by discriminate.
  destruct (Hev (EventSchema.mk 2%N "Street fair" "community"
                   1800000000000%Z "upcoming" philadelphia "alice") Hne)
    as [Hu Hd].
  destruct (Hgf (GeofenceSchema.mk 3%N 2%N (JNum 500) philadelphia
                   (GeofenceSchema.mkImpact (JStr "low")
                      (Some "Traffic impact for Street fair")) "alice") Hne)
    as [Hgu Hgd].
  split; [now apply Hu|]. split; [now apply Hgu|].
  split; [now apply Hd | now apply Hgd].
Defined.

(** ** Handing an Event over *)

(** X12: a successful Update whose body carries an [organizer] makes that
    user the Event's organizer.  From then on the new organizer may delete
    the Event, and the caller, unless an admin or the new organizer, is
    refused with 403 on both Update and Delete of the Event. *)
Theorem update_hands_over `{P : Persistence}
    (user : Req.user) (id : ObjectId) (body : Req.body) (v : UserId)
    (db db' : DB) (r : Response)
    (Hok : updateEvent user id body db = (db', Ok r))
    (Hv : Req.organizer body = Some v) :
  (exists e', resolves db' id = Some e' /\ EventSchema.organizer e' = v)
  /\ (v <> Req.id user -> Req.role user <> "admin" ->
      (forall b, exists m,
          updateEvent user id b db' = (db', Throw (ErrorResponse m 403)))
      /\ (exists m, deleteEvent user id db' = (db', Throw (ErrorResponse m 403))))
  /\ (forall u, Req.id u = v ->
                exists db'',
                  deleteEvent u id db'
                  = (db'', Ok (mkResponse 200 true None DataEmpty))).
Proof.
  destruct (resolves_after_update _ _ _ _ _ _ Hok) as (e & _ & _ & _ & Hr').
  assert (Horg : EventSchema.organizer (Event.applyUpdate body e) = v)
    by (simpl; now rewrite Hv).
  split; [eauto|]. split.
  - intros Hne Hrole.
    assert (Hm : may_modify user (Event.applyUpdate body e) = false)
      by (apply may_modify_false; [now rewrite Horg | assumption]).
    split; [intro b|]; eexists.
    + now apply updateEvent_denied with (Event.applyUpdate body e).
    + now apply deleteEvent_denied with (Event.applyUpdate body e).
  - intros u Hu. eexists.
    apply deleteEvent_allowed with (Event.applyUpdate body e); [exact Hr'|].
    apply may_modify_true. left. now rewrite Horg.
Qed.

Lemma update_hands_over_witness :
  exists db' r,
    @updateEvent sampleSchemas alice 0%N hand_over one_fair = (db', Ok r)
    /\ (exists m, @updateEvent sampleSchemas alice 0%N move db'
                  = (db', Throw (ErrorResponse m 403)))
    /\ (exists m, deleteEvent alice 0%N db'
                  = (db', Throw (ErrorResponse m 403)))
    /\ (exists db'', deleteEvent (Req.mkUser "mallory" "citizen") 0%N db'
                     = (db'', Ok (mkResponse 200 true None DataEmpty))).
Proof.
  assert (exists db' r,
             @updateEvent sampleSchemas alice 0%N hand_over one_fair
             = (db', Ok r))
    as (db' & r & E) by (vm_compute; eauto).
  destruct (@update_hands_over sampleSchemas alice 0%N hand_over "mallory"
              one_fair db' r E eq_refl) as (_ & Hlost & Hgained).
  assert (Hne : "mallory" <> Req.id alice) by (simpl; discriminate).
  assert (Hrole : Req.role alice <> "admin") by (simpl; discriminate).
  destruct (Hlost Hne Hrole) as [Hupd Hdel].
  exists db', r. split; [exact E|]. split; [apply Hupd|].
  split; [exact Hdel|]. now apply Hgained.
Defined.

(** ** The radius query *)

Example radius_query_calendar :
  dates_of (@getEventsInRadius sampleSphere 40 (-75) 6378 calendar)
  = [300; 100]%Z
  /\ dates_of (@getEventsInRadius sampleSphere 18.5 73.875 6378 calendar)
     = [250; 200]%Z
  /\ dates_of (@getEventsInRadius sampleSphere 40 (-75) 0 null_island) = [].
Proof. repeat split. Qed.






(** ** Requests that run between a handler's awaits *)

Lemma createEvent_awaiting_idle `{P : Persistence}
    (user : Req.user) (body : Req.body) (db : DB) :
  createEvent_awaiting (fun _ d => d) user body db = createEvent user body db.
Proof.
  unfold createEvent_awaiting, createEvent, bind, suspend.
  destruct (negb _ && negb _); [reflexivity|].
  destruct (Event.create _ db) as [db1 [e|x]]; reflexivity.
Qed.

Lemma updateEvent_awaiting_idle `{P : Persistence}
    (user : Req.user) (id : ObjectId) (body : Req.body) (db : DB) :
  updateEvent_awaiting (fun _ d => d) user id body db
  = updateEvent user id body db.
Proof.
  unfold updateEvent_awaiting, updateEvent, bind, suspend, Event.findById.
  destruct (find _ _) as [e|]; [|reflexivity].
  destruct (negb _ && negb _); [reflexivity|].
  destruct (Event.findByIdAndUpdate id body db) as [db1 [[e'|]|x]];
    try reflexivity;
    destruct (Req.coordinates body); reflexivity.
Qed.

(** X14: Update is not atomic.  With nothing running between its awaits the
    suspended handler is the handler; but when the Event it has looked up,
    and may modify, is gone by the time it issues the update (another
    request deleted it in between), the handler writes nothing and answers
    200 with [data: null] if the body carries no coordinates, and fails with
    a TypeError, reading [_id] of [null], if it does. *)
Theorem updateEvent_interleaved `{P : Persistence}
    (others : nat -> DB -> DB)
    (user : Req.user) (id : ObjectId) (body : Req.body) (db : DB)
    (e : EventSchema.doc) :
  updateEvent_awaiting (fun _ d => d) user id body db
  = updateEvent user id body db
  /\ (resolves db id = Some e ->
      EventSchema.organizer e = Req.id user \/ Req.role user = "admin" ->
      resolves (others 1 db) id = None ->
      updateEvent_awaiting others user id body db
      = (others 1 db,
         match Req.coordinates body with
         | Some _ => Throw TypeError
         | None => Ok (mkResponse 200 true None DataNull)
         end)).
Proof.
  split; [apply updateEvent_awaiting_idle|].
  intros Hr Hauth Hgone. apply may_modify_true in Hauth.
  unfold may_modify in Hauth.
  unfold updateEvent_awaiting, bind, suspend, Event.findById,
    Event.findByIdAndUpdate, ret, throw.
  unfold resolves in Hr, Hgone. rewrite Hr.
  rewrite <- negb_orb, Hauth. simpl. rewrite Hgone.
  now destruct (Req.coordinates body).
Qed.

Lemma updateEvent_interleaved_witness :
  exists e,
    resolves one_fair 0%N = Some e
    /\ resolves (fst (deleteEvent root 0%N one_fair)) 0%N = None
    /\ snd (@updateEvent_awaiting sampleSchemas
              (fun _ d => fst (deleteEvent root 0%N d)) alice 0%N move one_fair)
       = Throw TypeError
    /\ snd (@updateEvent_awaiting sampleSchemas
              (fun _ d => fst (deleteEvent root 0%N d)) alice 0%N hand_over
              one_fair)
       = Ok (mkResponse 200 true None DataNull).
Proof.
  assert (exists e, resolves one_fair 0%N = Some e) as (e & He)
    by (vm_compute; eauto).
  assert (Ha : EventSchema.organizer e = Req.id alice \/ Req.role alice = "admin").
  { left. vm_compute in He. injection He as <-. reflexivity. }
  assert (Hgone : resolves (fst (deleteEvent root 0%N one_fair)) 0%N = None)
    by reflexivity.
  exists e. split; [exact He|]. split; [exact Hgone|]. split.
  - rewrite (proj2 (@updateEvent_interleaved sampleSchemas
                      (fun _ d => fst (deleteEvent root 0%N d))
                      alice 0%N move one_fair e) He Ha Hgone).
    reflexivity.
  - rewrite (proj2 (@updateEvent_interleaved sampleSchemas
                      (fun _ d => fst (deleteEvent root 0%N d))
                      alice 0%N hand_over one_fair e) He Ha Hgone).
    reflexivity.
Defined.

(** X15: Create is not atomic either.  With nothing running between its
    awaits the suspended handler is the handler; but when a Create that
    would succeed on its own, on a well-formed database, is overtaken
    between its two writes by an admin's Delete of the Event it has just
    stored, it still answers 201 with that Event and stores the Geofence:
    the database is left with a Geofence referencing an Event that is not
    stored. *)
Theorem createEvent_interleaved `{P : Persistence}
    (user admin : Req.user) (body : Req.body) (db db' : DB) (r : Response) :
  createEvent_awaiting (fun _ d => d) user body db = createEvent user body db
  /\ (wf db ->
      createEvent user body db = (db', Ok r) ->
      Req.role admin = "admin" ->
      exists db'' g,
        createEvent_awaiting
          (fun _ d => fst (deleteEvent admin (nextId db) d)) user body db
        = (db'', Ok r)
        /\ events db'' = events db
        /\ geofences db'' = geofences db'
        /\ In g (geofences db'')
        /\ GeofenceSchema.event g = nextId db
        /\ resolves db'' (GeofenceSchema.event g) = None
        /\ ~ no_orphans db'').
Proof.
  split; [apply createEvent_awaiting_idle|].
  intros Hwf Hok Hadmin.
  assert (Hne : resolves db (nextId db) = None)
    by (apply resolves_unissued; [assumption | lia]).
  assert (Hng : paired db (nextId db) = None)
    by (apply paired_fresh; [assumption | lia]).
  destruct (may_create user) eqn:Hc;
    [|rewrite (createEvent_denied _ _ _ Hc) in Hok; discriminate].
  rewrite (createEvent_allowed _ _ _ Hc) in Hok.
  destruct (Event.cast _ _) as [e|] eqn:Hcast; [|discriminate].
  pose proof (cast_organizer _ _ _ _ Hcast) as (Hid & _ & _).
  destruct (validEvent e) eqn:Hv; [|discriminate].
  cbv zeta in Hok.
  destruct (validGeofence _) eqn:Hg; [|discriminate].
  injection Hok as <- <-.
  assert (Hdel : deleteEvent admin (nextId db)
                   (mkDB (events db ++ [e]) (geofences db) (N.succ (nextId db)))
                 = (mkDB (events db) (geofences db) (N.succ (nextId db)),
                    Ok (mkResponse 200 true None DataEmpty))).
  { rewrite (deleteEvent_allowed admin _ (nextId db) e).
    - simpl. f_equal. f_equal.
      + apply remove_first_snoc_fresh; [exact Hne | now apply byId_true].
      + now apply remove_first_none.
    - unfold resolves. simpl.
      apply find_snoc_fresh; [exact Hne | now apply byId_true].
    - apply may_modify_true. now right. }
  set (g := GeofenceSchema.mk
              (N.succ (nextId db)) (EventSchema._id e)
              (js_or (Req.geofenceRadius body) (JNum 500))
              (EventSchema.coordinates e)
              (GeofenceSchema.mkImpact
                 (js_or (Req.trafficImpact body) (JStr "low"))
                 (Some ("Traffic impact for " ++ EventSchema.title e)))
              (Req.id user)) in *.
  assert (Hin : In g (geofences db ++ [g]))
    by (apply in_or_app; right; now left).
  exists (mkDB (events db) (geofences db ++ [g]) (N.succ (N.succ (nextId db)))), g.
  split.
  - unfold createEvent_awaiting, bind, suspend, Event.create, Geofence.create,
      ret, throw.
    unfold may_create in Hc. rewrite <- negb_orb, Hc.
    cbn [negb]. rewrite Hcast, Hv. cbv beta iota. rewrite Hdel.
    cbn [fst events geofences nextId]. unfold Req.set_organizer.
    cbn [Req.geofenceRadius Req.trafficImpact].
    rewrite coordinates_eta. fold g. rewrite Hg. reflexivity.
  - cbn [events geofences]. split; [reflexivity|]. split; [reflexivity|].
    split; [exact Hin|]. split; [exact Hid|]. split.
    + unfold g. cbn [GeofenceSchema.event]. rewrite Hid. exact Hne.
    + intro Hno. destruct (Hno g Hin) as (e0 & He0 & Heq).
      cbn [events] in He0. unfold g in Heq. cbn [GeofenceSchema.event] in Heq.
      rewrite Hid in Heq.
      now apply (proj1 (resolves_none db (nextId db)) Hne e0).
Qed.

Lemma createEvent_interleaved_witness :
  exists db'' r g,
    @createEvent_awaiting sampleSchemas
      (fun _ d => fst (deleteEvent root 0%N d)) alice fair_300 emptyDB
    = (db'', Ok r)
    /\ events db'' = []
    /\ geofences db'' = [g]
    /\ GeofenceSchema.event g = 0%N.
Proof.
  assert (exists db' r,
             @createEvent sampleSchemas alice fair_300 emptyDB = (db', Ok r))
    as (db' & r & E) by (vm_compute; eauto).
  destruct (proj2 (@createEvent_interleaved sampleSchemas alice root fair_300
                     emptyDB db' r) wf_empty E eq_refl)
    as (db'' & g & Hrun & Hev & Hgf & Hin & Hid & _).
  exists db'', r, g. split; [exact Hrun|]. split; [exact Hev|].
  split; [|exact Hid].
  vm_compute in E. injection E as <- _.
  rewrite Hgf in Hin |- *. simpl in Hin |- *.
  destruct Hin as [<-|[]]. reflexivity.
Defined.
